(** * Calamari [ceph_refresh]: a shallow embedding and its properties

    The development follows
    [webapp/calamari/ceph/management/commands/ceph_refresh.py], a Python 2
    Django management command.  Its three classes become three modules
    ([CephRestClient], [ModelAdapter], [Command]) over one state-and-exception
    monad: the state holds everything the command can observe or change (the
    HTTP requests it issued, the in-memory model instances, the persisted
    rows, the two output streams, [Command._last_response]); an exception
    leaves the state as it was when it was raised. *)

From Stdlib Require Import ZArith String Ascii List.
From stdpp Require Import gmap strings list fin_maps fin_sets pretty.

#[local] Set Warnings "-register-all".
#[local] Open Scope Z_scope.

(** ** Python values

    What [requests]' [Response.json()] can return, with JSON numbers
    restricted to integers (Python 2 [int]/[long], unbounded); a JSON object
    is a [dict], hence a finite map. *)

Inductive value : Type :=
  | VNone
  | VBool (b : bool)
  | VInt (n : Z)
  | VStr (s : string)
  | VList (l : list value)
  | VDict (d : gmap string value).

(** The exceptions the command can meet. [ConnectionError] stands for any
    transport failure of [requests.get], [ValueError] for a body that is not
    JSON. [ReferenceError] is never raised by Python here: the model raises it
    for a reference to a model instance that was not loaded. *)

Inductive exn : Type :=
  | KeyError
  | TypeError
  | AttributeError
  | IndexError
  | ValueError
  | ConnectionError
  | ReferenceError.

Inductive result (A : Type) : Type :=
  | Ok (a : A)
  | Raise (e : exn).

Arguments Ok {A} a.
Arguments Raise {A} e.

Definition exn_name (e : exn) : string :=
  match e with
  | KeyError => "KeyError"
  | TypeError => "TypeError"
  | AttributeError => "AttributeError"
  | IndexError => "IndexError"
  | ValueError => "ValueError"
  | ConnectionError => "ConnectionError"
  | ReferenceError => "ReferenceError"
  end.

(** ** Operations on values, as Python 2 evaluates them *)

(** [v[k]] for a string key [k]. *)
Definition getitem (v : value) (k : string) : result value :=
  match v with
  | VDict d => match d !! k with Some x => Ok x | None => Raise KeyError end
  | _ => Raise TypeError
  end.

Fixpoint repeat_string (n : nat) (s : string) : string :=
  match n with
  | O => EmptyString
  | S n' => s +:+ repeat_string n' s
  end.

(** [v * n] for an [int] literal [n]: product on numbers, repetition on
    sequences. *)
Definition mul_int (v : value) (n : Z) : result value :=
  match v with
  | VInt m => Ok (VInt (m * n))
  | VBool b => Ok (VInt (Z.b2z b * n))
  | VStr s => Ok (VStr (repeat_string (Z.to_nat n) s))
  | VList l => Ok (VList (concat (replicate (Z.to_nat n) l)))
  | VNone | VDict _ => Raise TypeError
  end.

(** [min(v, 1)]: the first argument unless [1 < v]. Python 2 orders [None]
    below every number and every number below strings, lists and dicts. *)
Definition min_one (v : value) : value :=
  match v with
  | VNone => VNone
  | VBool b => VBool b
  | VInt n => if 1 <? n then VInt 1 else VInt n
  | VStr _ | VList _ | VDict _ => VInt 1
  end.

(** [n + v] for an [int] [n], the sum behind [counts[key] += v]. *)
Definition add_int (n : Z) (v : value) : result Z :=
  match v with
  | VInt m => Ok (n + m)
  | VBool b => Ok (n + Z.b2z b)
  | _ => Raise TypeError
  end.

Fixpoint chars (s : string) : list value :=
  match s with
  | EmptyString => []
  | String c s' => VStr (String c EmptyString) :: chars s'
  end.

(** The items a [for] loop (or [imap]) draws from [v]. *)
Definition iter_value (v : value) : result (list value) :=
  match v with
  | VList l => Ok l
  | VDict d => Ok ((λ kv, VStr kv.1) <$> map_to_list d)
  | VStr s => Ok (chars s)
  | _ => Raise TypeError
  end.

(** [len(v)]. *)
Definition len (v : value) : result Z :=
  match v with
  | VList l => Ok (Z.of_nat (length l))
  | VDict d => Ok (Z.of_nat (size d))
  | VStr s => Ok (Z.of_nat (String.length s))
  | _ => Raise TypeError
  end.

(** [v.items()]: only a dict has the method. *)
Definition items (v : value) : result (gmap string value) :=
  match v with
  | VDict d => Ok d
  | _ => Raise AttributeError
  end.

(** [s[-1]]. *)
Fixpoint last_char (s : string) : option ascii :=
  match s with
  | EmptyString => None
  | String c EmptyString => Some c
  | String _ s' => last_char s'
  end.

(** ** The world *)

(** A [requests.Response], as far as the command looks at it. [headers] is
    the text that ["%s" % (r.headers,)] prints; [json_body] is [None] when
    [r.json()] raises. *)
Record Response : Type := {
  status_code : Z;
  headers : string;
  text : string;
  json_body : option value;
}.

(** Truth value of a response: [requests] defines [Response.__nonzero__] as
    [self.ok], false for a status code from 400 to 599. *)
Definition response_truthy (r : Response) : bool :=
  negb ((400 <=? status_code r) && (status_code r <? 600)).

(** Modelled from the spec: [ceph.models] ([Cluster], [ClusterStatus]) is not
    among the sources. A cluster has an identity (name, API base URL) and the
    four snapshot fields; a status record is the cluster it belongs to and
    the raw report. [pk] is Django's primary key. *)
Record Cluster : Type := {
  pk : Z;
  name : string;
  api_base_url : string;
  space : value;
  health : value;
  osds : value;
  counters : value;
}.

Record ClusterStatus : Type := {
  status_cluster : Z;
  report : value;
}.

(** A reference to an in-memory model instance: its index in
    [instances]. *)
Definition ref : Type := nat.

Record state : Type := {
  (** the network: what a GET of a URL answers, given the URLs requested so
      far; [None] when [requests.get] raises *)
  net : list string → string → option Response;
  (** URLs of the GET requests issued, oldest first *)
  requests : list string;
  (** the model instances loaded by [ClusterModel.objects.all()] *)
  instances : list Cluster;
  (** persisted [Cluster] rows *)
  db_clusters : list Cluster;
  (** persisted [ClusterStatus] rows, oldest first *)
  db_status : list ClusterStatus;
  stdout : list string;
  stderr : list string;
  (** [Command._last_response] *)
  _last_response : option Response;
}.

(** ** The monad *)

Definition M (A : Type) : Type := state → result A * state.

Definition ret {A} (a : A) : M A := λ s, (Ok a, s).

Definition raise {A} (e : exn) : M A := λ s, (Raise e, s).

Definition bind {A B} (m : M A) (k : A → M B) : M B :=
  λ s, match m s with
       | (Ok a, s') => k a s'
       | (Raise e, s') => (Raise e, s')
       end.

Notation "'let*' x ':=' m 'in' k" := (bind m (λ x, k))
  (at level 10, x name, m at level 100, k at level 200).
Notation "m ';;' k" := (bind m (λ _, k))
  (at level 100, k at level 200, right associativity).

(** A pure computation that may raise. *)
Definition lift {A} (r : result A) : M A := λ s, (r, s).

(** [try: body except Exception as e: handler e]. *)
Definition try_except {A} (body : M A) (handler : exn → M A) : M A :=
  λ s, match body s with
       | (Ok a, s') => (Ok a, s')
       | (Raise e, s') => handler e s'
       end.

(** [for x in xs: body x]. *)
Fixpoint for_each {A} (xs : list A) (body : A → M unit) : M unit :=
  match xs with
  | [] => ret tt
  | x :: xs' => body x ;; for_each xs' body
  end.

Definition modify (f : state → state) : M unit := λ s, (Ok tt, f s).

Definition gets {A} (f : state → A) : M A := λ s, (Ok (f s), s).

Definition set_requests (v : list string) (s : state) : state :=
  {| net := net s; requests := v; instances := instances s;
     db_clusters := db_clusters s; db_status := db_status s;
     stdout := stdout s; stderr := stderr s;
     _last_response := _last_response s |}.

Definition set_instances (v : list Cluster) (s : state) : state :=
  {| net := net s; requests := requests s; instances := v;
     db_clusters := db_clusters s; db_status := db_status s;
     stdout := stdout s; stderr := stderr s;
     _last_response := _last_response s |}.

Definition set_db_clusters (v : list Cluster) (s : state) : state :=
  {| net := net s; requests := requests s; instances := instances s;
     db_clusters := v; db_status := db_status s;
     stdout := stdout s; stderr := stderr s;
     _last_response := _last_response s |}.

Definition set_db_status (v : list ClusterStatus) (s : state) : state :=
  {| net := net s; requests := requests s; instances := instances s;
     db_clusters := db_clusters s; db_status := v;
     stdout := stdout s; stderr := stderr s;
     _last_response := _last_response s |}.

Definition set_stdout (v : list string) (s : state) : state :=
  {| net := net s; requests := requests s; instances := instances s;
     db_clusters := db_clusters s; db_status := db_status s;
     stdout := v; stderr := stderr s;
     _last_response := _last_response s |}.

Definition set_stderr (v : list string) (s : state) : state :=
  {| net := net s; requests := requests s; instances := instances s;
     db_clusters := db_clusters s; db_status := db_status s;
     stdout := stdout s; stderr := v;
     _last_response := _last_response s |}.

Definition set_last_response (v : option Response) (s : state) : state :=
  {| net := net s; requests := requests s; instances := instances s;
     db_clusters := db_clusters s; db_status := db_status s;
     stdout := stdout s; stderr := stderr s;
     _last_response := v |}.

(** ** Primitives *)

(** [requests.get(url, headers = hdr)]: the request is issued, then the
    network answers or the call raises. *)
Definition requests_get (url : string) : M Response :=
  λ s, let s' := set_requests (requests s ++ [url]) s in
       match net s (requests s) url with
       | Some r => (Ok r, s')
       | None => (Raise ConnectionError, s')
       end.

(** [r.json()]. *)
Definition json (r : Response) : M value :=
  match json_body r with
  | Some v => ret v
  | None => raise ValueError
  end.

(** [out.write(line)] on the two streams. *)
Definition stdout_write (line : string) : M unit :=
  modify (λ s, set_stdout (stdout s ++ [line]) s).

Definition stderr_write (line : string) : M unit :=
  modify (λ s, set_stderr (stderr s ++ [line]) s).

(** Reading an attribute of a model instance and assigning one. *)
Definition getattr {A} (c : ref) (field : Cluster → A) : M A :=
  λ s, match instances s !! c with
       | Some o => (Ok (field o), s)
       | None => (Raise ReferenceError, s)
       end.

Definition setattr (c : ref) (f : Cluster → Cluster) : M unit :=
  λ s, match instances s !! c with
       | Some o => (Ok tt, set_instances (<[c := f o]> (instances s)) s)
       | None => (Raise ReferenceError, s)
       end.

Definition with_space (v : value) (c : Cluster) : Cluster :=
  {| pk := pk c; name := name c; api_base_url := api_base_url c;
     space := v; health := health c; osds := osds c;
     counters := counters c |}.

Definition with_health (v : value) (c : Cluster) : Cluster :=
  {| pk := pk c; name := name c; api_base_url := api_base_url c;
     space := space c; health := v; osds := osds c;
     counters := counters c |}.

Definition with_osds (v : value) (c : Cluster) : Cluster :=
  {| pk := pk c; name := name c; api_base_url := api_base_url c;
     space := space c; health := health c; osds := v;
     counters := counters c |}.

Definition with_counters (v : value) (c : Cluster) : Cluster :=
  {| pk := pk c; name := name c; api_base_url := api_base_url c;
     space := space c; health := health c; osds := osds c;
     counters := v |}.

(** Modelled from the spec: the persistence layer is not among the sources.
    [ClusterModel.objects.all()] loads one instance per persisted row;
    [cluster.save()] writes the instance back over the row with its primary
    key (or adds the row); [ClusterStatus(...).save()] appends a row. Writes
    do not fail. *)
Definition objects_all : M (list ref) :=
  λ s, (Ok (seq 0 (length (db_clusters s))),
        set_instances (db_clusters s) s).

Fixpoint save_row (o : Cluster) (rows : list Cluster) : list Cluster :=
  match rows with
  | [] => [o]
  | r :: rows' =>
      if decide (pk r = pk o) then o :: rows' else r :: save_row o rows'
  end.

Definition cluster_save (c : ref) : M unit :=
  let* o := getattr c id in
  modify (λ s, set_db_clusters (save_row o (db_clusters s)) s).

Definition cluster_status_save (c : ref) (rep : value) : M unit :=
  let* k := getattr c pk in
  modify (λ s, set_db_status
                 (db_status s ++ [{| status_cluster := k; report := rep |}])
                 s).

(** ** [class CephRestClient] *)

Module CephRestClient.

Record t : Type := { __url : string }.

Definition __init__ (url : string) : result t :=
  match last_char url with
  | None => Raise IndexError
  | Some c =>
      if decide (c = "/"%char) then Ok {| __url := url |}
      else Ok {| __url := url +:+ "/" |}
  end.

Definition _query (self : t) (endpoint : string) : M value :=
  let* r := requests_get (__url self +:+ endpoint) in
  json r.

Definition get_space_stats (self : t) : M value :=
  let* body := _query self "df" in
  lift (getitem body "output").

Definition get_health (self : t) : M value :=
  let* body := _query self "health?detail" in
  lift (getitem body "output").

Definition get_osds (self : t) : M value :=
  let* body := _query self "osd/dump" in
  lift (getitem body "output").

Definition get_pg_pools (self : t) : M value :=
  let* body := _query self "pg/dump?dumpcontents=pools" in
  lift (getitem body "output").

End CephRestClient.

(** ** [class ModelAdapter] *)

Module ModelAdapter.

Record t : Type := {
  client : CephRestClient.t;
  cluster : ref;
}.

Definition __init__ (client : CephRestClient.t) (cluster : ref) : t :=
  {| client := client; cluster := cluster |}.

Definition _populate_space (self : t) : M unit :=
  let* out := CephRestClient.get_space_stats (client self) in
  let* data := lift (getitem out "stats") in
  let* total_used := lift (getitem data "total_used") in
  let* used_bytes := lift (mul_int total_used 1024) in
  let* total_space := lift (getitem data "total_space") in
  let* capacity_bytes := lift (mul_int total_space 1024) in
  let* total_avail := lift (getitem data "total_avail") in
  let* free_bytes := lift (mul_int total_avail 1024) in
  setattr (cluster self)
    (with_space (VDict (<["used_bytes" := used_bytes]>
                       (<["capacity_bytes" := capacity_bytes]>
                       (<["free_bytes" := free_bytes]> ∅))))).

Definition _populate_health (self : t) : M unit :=
  let* data := CephRestClient.get_health (client self) in
  let* overall_status := lift (getitem data "overall_status") in
  let* detail := lift (getitem data "detail") in
  let* summary := lift (getitem data "summary") in
  setattr (cluster self)
    (with_health (VDict (<["overall_status" := overall_status]>
                        (<["detail" := detail]>
                        (<["summary" := summary]> ∅))))).

Definition _populate_osds (self : t) : M unit :=
  let* data := CephRestClient.get_osds (client self) in
  let* v := lift (getitem data "osds") in
  setattr (cluster self) (with_osds v).

Definition fields : list string :=
  ["num_objects_unfound"; "num_objects_missing_on_primary";
   "num_deep_scrub_errors"; "num_shallow_scrub_errors";
   "num_scrub_errors"; "num_objects_degraded"].

(** [counts[key]] on the [defaultdict(lambda: 0)]. *)
Definition counter (counts : gmap string Z) (key : string) : Z :=
  default 0 (counts !! key).

(** [counts[key] += min(value, 1)]. *)
Definition bump (key : string) (v : value) (counts : gmap string Z)
  : result (gmap string Z) :=
  match add_int (counter counts key) (min_one v) with
  | Ok n => Ok (<[key := n]> counts)
  | Raise e => Raise e
  end.

(** [for key, value in pool.items(): counts[key] += min(value, 1)]; the
    loop stops at the first exception. *)
Definition count_items (pool : gmap string value) (counts : gmap string Z)
  : result (gmap string Z) :=
  map_fold (λ key v acc,
              match acc with
              | Ok c => bump key v c
              | Raise e => Raise e
              end)
           (Ok counts) pool.

(** The outer loop over [imap(lambda p: p['stat_sum'], pools)]: [imap] is
    lazy, so a pool's ['stat_sum'] is looked up when its turn comes. *)
Fixpoint count_pools (ps : list value) (counts : gmap string Z)
  : result (gmap string Z) :=
  match ps with
  | [] => Ok counts
  | p :: ps' =>
      match getitem p "stat_sum" with
      | Raise e => Raise e
      | Ok pool =>
          match items pool with
          | Raise e => Raise e
          | Ok kvs =>
              match count_items kvs counts with
              | Raise e => Raise e
              | Ok counts' => count_pools ps' counts'
              end
          end
      end
  end.

(** [for delkey in set(counts.keys()) - set(fields): del counts[delkey]]. *)
Definition drop_unrecognized (counts : gmap string Z) : gmap string Z :=
  set_fold delete counts (dom counts ∖ list_to_set fields : gset string).

Definition _calculate_pool_counters (self : t) : M (gmap string Z) :=
  let counts : gmap string Z := ∅ in
  let* pools := CephRestClient.get_pg_pools (client self) in
  let* ps := lift (iter_value pools) in
  let* counts := lift (count_pools ps counts) in
  let counts := drop_unrecognized counts in
  let* total := lift (len pools) in
  ret (<["total" := total]> counts).

Definition _populate_counters (self : t) : M unit :=
  let* pool := _calculate_pool_counters self in
  setattr (cluster self)
    (with_counters (VDict (<["pool" := VDict (VInt <$> pool)]> ∅))).

(** The attribute names of an instance: those set by [__init__], those of
    the class body in the order written, those every new-style class and
    [object] provide. *)
Definition instance_attrs : list string := ["client"; "cluster"].

Definition class_attrs : list string :=
  ["__init__"; "refresh"; "_populate_space"; "_populate_health";
   "_populate_osds"; "_populate_counters"; "_calculate_pool_counters";
   "__dict__"; "__doc__"; "__module__"; "__weakref__"].

Definition object_attrs : list string :=
  ["__class__"; "__delattr__"; "__doc__"; "__format__";
   "__getattribute__"; "__hash__"; "__init__"; "__new__"; "__reduce__";
   "__reduce_ex__"; "__repr__"; "__setattr__"; "__sizeof__"; "__str__";
   "__subclasshook__"].

(** [dir(self)]: the names without repetition, sorted as strings. *)
Fixpoint insert_sorted (a : string) (l : list string) : list string :=
  match l with
  | [] => [a]
  | b :: l' =>
      if decide (a = b) then l
      else if String.ltb a b then a :: l
      else b :: insert_sorted a l'
  end.

Definition dir (self : t) : list string :=
  foldr insert_sorted [] (instance_attrs ++ class_attrs ++ object_attrs).

(** [getattr(self, attr)()] for the names [refresh] can select. *)
Definition call_method (self : t) (attr : string) : M unit :=
  if decide (attr = "_populate_space") then _populate_space self
  else if decide (attr = "_populate_health") then _populate_health self
  else if decide (attr = "_populate_osds") then _populate_osds self
  else if decide (attr = "_populate_counters") then _populate_counters self
  else raise AttributeError.

Definition refresh (self : t) : M unit :=
  let attrs := List.filter (String.prefix "_populate_") (dir self) in
  for_each attrs (call_method self) ;;
  cluster_save (cluster self).

End ModelAdapter.

(** ** [class Command] *)

Module Command.

Definition __init__ : M unit := modify (set_last_response None).

Definition _print_response (write : string → M unit)
    (r : option Response) : M unit :=
  match r with
  | None => write "last response: <not set>"
  | Some r' =>
      if response_truthy r' then
        write ("last response: status code: " +:+ pretty (status_code r')) ;;
        write ("last response: headers: " +:+ headers r') ;;
        write ("last response: content: " +:+ text r')
      else write "last response: <not set>"
  end.

(** [url_base.append('/')] is reached when the base URL lacks the final
    slash; a string has no [append]. *)
Definition _cluster_query (cluster : ref) (url : string) : M value :=
  let* url_base := getattr cluster api_base_url in
  match last_char url_base with
  | None => raise IndexError
  | Some c =>
      (if decide (c = "/"%char) then ret tt else raise AttributeError) ;;
      let* r := requests_get (url_base +:+ url) in
      modify (set_last_response (Some r)) ;;
      json r
  end.

Definition _refresh_cluster_status (cluster : ref) : M unit :=
  let* result := _cluster_query cluster "status" in
  let* rep := lift (getitem result "output") in
  cluster_status_save cluster rep ;;
  let* nm := getattr cluster name in
  stdout_write ("(" +:+ nm +:+ "): updated cluster status").

(** [traceback.format_exc()], without the stack frames. *)
Definition format_exc (e : exn) : string :=
  "Traceback (most recent call last): " +:+ exn_name e.

(** The body of the loop of [handle]. *)
Definition handle_cluster (cluster : ref) : M unit :=
  let* url := getattr cluster api_base_url in
  let* client := lift (CephRestClient.__init__ url) in
  let adapter := ModelAdapter.__init__ client cluster in
  ModelAdapter.refresh adapter ;;
  let* nm := getattr cluster name in
  let* url := getattr cluster api_base_url in
  stdout_write ("Refreshing data from cluster: " +:+ nm +:+
                " (" +:+ url +:+ ")") ;;
  try_except (_refresh_cluster_status cluster)
    (λ e,
       let* r := gets _last_response in
       _print_response stderr_write r ;;
       stderr_write (format_exc e)).

Definition handle : M unit :=
  let* clusters := objects_all in
  stdout_write ("Updating " +:+ pretty (length clusters) +:+
                " clusters...") ;;
  for_each clusters handle_cluster ;;
  stdout_write "Update completed!".

End Command.

(** ** [class SaltEventSource] ([calamari_common/salt_wrapper.py])

    A wrapper around salt's [MasterEvent] that re-opens the connection
    after too long a silence. A [MasterEvent] object is identified by the
    order of its construction; [MasterEvent(...)] is taken to succeed.
    [gevent.spawn] is recorded, not run: [spawned] lists the connections
    whose [destroy] has been handed to a greenlet. *)

Module SaltEventSource.

Definition POLL_TIMEOUT : Z := 5.

Definition SILENCE_TIMEOUT : Z := 20.

Record t : Type := {
  _silence_counter : Z;
  (** the current [MasterEvent] *)
  _master_event : nat;
  (** how many [MasterEvent] objects have been constructed *)
  opened : nat;
  (** connections passed to [gevent.spawn(... _destroy_conn ...)] *)
  spawned : list nat;
  (** lines written by [self._log.warning] *)
  warnings : list string;
}.

(** [__init__]: the first connection is constructed. *)
Definition __init__ : t :=
  {| _silence_counter := 0; _master_event := 0; opened := 1;
     spawned := []; warnings := [] |}.

(** [get_event], given what [self._master_event.get_event(POLL_TIMEOUT)]
    returned: [None] for a silent poll. *)
Definition get_event {Event : Type} (ev : option Event) (self : t)
  : option Event * t :=
  match ev with
  | None =>
      let counter := _silence_counter self + POLL_TIMEOUT in
      if SILENCE_TIMEOUT <? counter then
        let old_ev := _master_event self in
        (None,
         {| _silence_counter := 0;
            _master_event := opened self;
            opened := S (opened self);
            spawned := spawned self ++ [old_ev];
            warnings := warnings self
                        ++ ["Re-opening connection to salt-master"] |})
      else
        (None,
         {| _silence_counter := counter;
            _master_event := _master_event self;
            opened := opened self;
            spawned := spawned self;
            warnings := warnings self |})
  | Some e =>
      (Some e,
       {| _silence_counter := 0;
          _master_event := _master_event self;
          opened := opened self;
          spawned := spawned self;
          warnings := warnings self |})
  end.

End SaltEventSource.

(** * Vocabulary of the statements *)

(** The state after one more GET of [url]. *)
Definition issue (url : string) (s : state) : state :=
  set_requests (requests s ++ [url]) s.

(** In state [s] the network answers a GET of [url] with a response whose
    body decodes to [body]. *)
Definition answers (s : state) (url : string) (body : value) : Prop :=
  ∃ r, net s (requests s) url = Some r ∧ json_body r = Some body.

(** The spec's summand: [min(value, 1)] when the field is present in the
    pool's mapping, [0] when it is absent. *)
Definition clamped_indicator (field : string) (pool : gmap string Z) : Z :=
  match pool !! field with
  | Some v => Z.min v 1
  | None => 0
  end.

Definition sum_Z (l : list Z) : Z := foldr Z.add 0 l.

(** An element [p] of the pool dump carries the statistic mapping [m]. *)
Definition pool_with (m : gmap string Z) (p : value) : Prop :=
  getitem p "stat_sum" = Ok (VDict (VInt <$> m)).

(** The state a fresh [Command] starts from. *)
Definition boot (n : list string → string → option Response)
    (rows : list Cluster) : state :=
  {| net := n; requests := []; instances := []; db_clusters := rows;
     db_status := []; stdout := []; stderr := []; _last_response := None |}.

(** A network that answers by URL alone. *)
Definition serve (pages : gmap string Response)
  : list string → string → option Response :=
  λ _ url, pages !! url.

Definition ok_response (content : string) (body : value) : Response :=
  {| status_code := 200; headers := "{'content-type': 'application/json'}";
     text := content; json_body := Some body |}.

Definition output (v : value) : value := VDict (<["output" := v]> ∅).

Definition new_cluster (k : Z) (nm url : string) : Cluster :=
  {| pk := k; name := nm; api_base_url := url; space := VNone;
     health := VNone; osds := VNone; counters := VNone |}.

(** The pool dump of the spec's example:
    [[{num_objects_degraded: 3}, {num_objects_degraded: 0}, {other: 5}]]. *)
Definition example_stats : list (gmap string Z) :=
  [ {["num_objects_degraded" := 3]}; {["num_objects_degraded" := 0]};
    {["other" := 5]} ].

Definition example_pools : list value :=
  (λ m : gmap string Z, VDict (<["stat_sum" := VDict (VInt <$> m)]> ∅))
    <$> example_stats.

Definition example_pages (base : string) : gmap string Response :=
  <[base +:+ "df" :=
      ok_response "df"
        (output (VDict (<["stats" :=
           VDict (<["total_used" := VInt 7]>
                 (<["total_space" := VInt 100]>
                 (<["total_avail" := VInt 93]> ∅)))]> ∅)))]>
  (<[base +:+ "health?detail" :=
      ok_response "health"
        (output (VDict (<["overall_status" := VStr "HEALTH_OK"]>
                       (<["detail" := VList []]>
                       (<["summary" := VList []]> ∅)))))]>
  (<[base +:+ "osd/dump" :=
      ok_response "osd dump" (output (VDict (<["osds" := VList []]> ∅)))]>
  (<[base +:+ "pg/dump?dumpcontents=pools" :=
      ok_response "pg dump" (output (VList example_pools))]>
  (<[base +:+ "status" :=
      ok_response (base +:+ " status") (output (VStr "HEALTH_OK"))]> ∅)))).

Definition example_adapter : ModelAdapter.t :=
  ModelAdapter.__init__
    {| CephRestClient.__url := "http://host:1234/" |} 0%nat.

(** One cluster, loaded in memory, on a network that answers everything. *)
Definition example_state : state :=
  set_instances [new_cluster 1 "ceph" "http://host:1234"]
    (boot (serve (example_pages "http://host:1234/"))
          [new_cluster 1 "ceph" "http://host:1234"]).

(** [m] relates every state to the state it leaves, whether it returns or
    raises. *)
Definition preserves {A} (R : relation state) (m : M A) : Prop :=
  ∀ s, R s (m s).2.

(** The observation [f] of the state is the same before and after. *)
Definition same {X} (f : state → X) : relation state :=
  λ s s', f s' = f s.

(** When [m] raises, the in-memory instances are as they were before. *)
Definition rollback {A} (m : M A) : Prop :=
  ∀ s e s', m s = (Raise e, s') → instances s' = instances s.

(** What [_print_response] writes for [r]. *)
Definition response_lines (r : option Response) : list string :=
  match r with
  | None => ["last response: <not set>"]
  | Some r' =>
      if response_truthy r' then
        ["last response: status code: " +:+ pretty (status_code r');
         "last response: headers: " +:+ headers r';
         "last response: content: " +:+ text r']
      else ["last response: <not set>"]
  end.

(** The [except] branch of [handle]. *)
Definition diagnose (e : exn) : M unit :=
  let* r := gets _last_response in
  Command._print_response stderr_write r ;;
  stderr_write (Command.format_exc e).

(** Nothing that the failure diagnostic depends on has changed: the network
    is the same, nothing was written to [stderr], [_last_response] is the
    same; requests may have been issued. *)
Definition quiet : relation state :=
  λ s s', net s' = net s ∧ stderr s' = stderr s ∧
          _last_response s' = _last_response s ∧
          ∃ l, requests s' = requests s ++ l.

(** From [s] to [s'], either nothing was written to [stderr] or one
    diagnostic was, showing the response retained in [s']; and the retained
    response is either the one of [s] or the answer to a GET of a [status]
    URL issued in between. *)
Definition diagnosed : relation state :=
  λ s s',
    (stderr s' = stderr s ∨
     ∃ e, stderr s' = stderr s ++ response_lines (_last_response s')
                               ++ [Command.format_exc e]) ∧
    (_last_response s' = _last_response s ∨
     ∃ l base r,
       requests s' = requests s ++ l ++ [base +:+ "status"] ∧
       net s (requests s ++ l) (base +:+ "status") = Some r ∧
       _last_response s' = Some r).

(** The build with the steps in the order the spec gives: space, health,
    osds, counters, then the save. *)
Definition refresh_in_spec_order (self : ModelAdapter.t) : M unit :=
  ModelAdapter._populate_space self ;;
  ModelAdapter._populate_health self ;;
  ModelAdapter._populate_osds self ;;
  ModelAdapter._populate_counters self ;;
  cluster_save (ModelAdapter.cluster self).

(** The population steps [refresh] selects, by name. *)
Definition populate_attrs (self : ModelAdapter.t) : list string :=
  List.filter (String.prefix "_populate_") (ModelAdapter.dir self).

(** Two registered clusters; nothing answers at the first one's URL, the
    second one's API answers every endpoint. *)
Definition first_down_state : state :=
  boot (serve (example_pages "http://b/"))
       [new_cluster 1 "a" "http://a/"; new_cluster 2 "b" "http://b/"].

(** Two registered clusters, both answering, except that the GET of the
    second one's [status] fails. *)
Definition second_status_down_state : state :=
  boot (serve (example_pages "http://a/"
               ∪ delete "http://b/status" (example_pages "http://b/")))
       [new_cluster 1 "a" "http://a/"; new_cluster 2 "b" "http://b/"].

(** One cluster whose health query answers without [overall_status]; the
    pool dump answers. *)
Definition health_broken_state : state :=
  set_instances [new_cluster 1 "ceph" "http://host:1234/"]
    (boot (serve (<["http://host:1234/health?detail" :=
                      ok_response "health" (output (VDict ∅))]>
                  (example_pages "http://host:1234/")))
          [new_cluster 1 "ceph" "http://host:1234/"]).

(** The answer to the status GET of cluster [o], asked after the requests
    [asked]: none when the base URL does not end with a slash (the GET is
    not issued) or when the GET raises. *)
Definition status_answer (network : list string → string → option Response)
    (asked : list string) (o : Cluster) : option Response :=
  if decide (last_char (api_base_url o) = Some "/"%char)
  then network asked (api_base_url o +:+ "status")
  else None.



(** The cycle of [second_status_down_state] after its first cluster: both
    instances loaded, the first cluster's status response retained. *)
Definition before_second_state : state :=
  set_last_response (example_pages "http://a/" !! "http://a/status")
    (set_instances (db_clusters second_status_down_state)
       second_status_down_state).

(** ** Vocabulary of the further properties *)

(** What identifies a cluster. *)
Definition identity (c : Cluster) : Z * string * string :=
  (pk c, name c, api_base_url c).

(** Status rows are added at the end, none is changed or removed. *)
Definition status_grows : relation state :=
  λ s s', ∃ l, db_status s' = db_status s ++ l.

(** The URLs [refresh] asks, in the order it asks them. *)
Definition refresh_urls (self : ModelAdapter.t) : list string :=
  (λ endpoint, CephRestClient.__url (ModelAdapter.client self) +:+ endpoint)
    <$> ["pg/dump?dumpcontents=pools"; "health?detail"; "osd/dump"; "df"].

(** What a typed wrapper of the REST client does with [endpoint]. *)
Definition query_output_of (self : CephRestClient.t) (endpoint : string)
  : M value :=
  let* body := CephRestClient._query self endpoint in
  lift (getitem body "output").

(** A pool of the dump whose statistics are the integers of [m]. *)
Definition int_pool (m : gmap string Z) : value :=
  VDict (<["stat_sum" := VDict (VInt <$> m)]> ∅).

(** A sequence of polls, oldest first: the events handed out and the
    source after the last one. *)
Fixpoint polls {Event : Type} (evs : list (option Event))
    (self : SaltEventSource.t) : list (option Event) * SaltEventSource.t :=
  match evs with
  | [] => ([], self)
  | ev :: evs' =>
      let '(out, self1) := SaltEventSource.get_event ev self in
      let '(outs, self2) := polls evs' self1 in
      (out :: outs, self2)
  end.

(** The source keeps its books: the silence counter is one of 0, 5, 10, 15,
    20; the current connection is the last one constructed; the connections
    handed to a greenlet for destruction are exactly the earlier ones, each
    once, in the order of their construction. *)
Definition well_kept (self : SaltEventSource.t) : Prop :=
  (0 ≤ SaltEventSource._silence_counter self ≤ 20) ∧
  (5 | SaltEventSource._silence_counter self) ∧
  SaltEventSource.opened self = S (SaltEventSource._master_event self) ∧
  SaltEventSource.spawned self
  = seq 0 (SaltEventSource._master_event self).


(** What one pool does to the entry of [k] in the running counts. *)
Definition tally (k : string) (acc : option Z) (m : gmap string Z)
  : option Z :=
  match m !! k with
  | Some v => Some (default 0 acc + Z.min v 1)
  | None => acc
  end.

(** One cluster, loaded in memory, whose pool dump is [ps]; nothing else
    answers. *)
Definition dump_state (ps : list value) : state :=
  set_instances [new_cluster 1 "ceph" "http://host:1234/"]
    (boot (serve (<["http://host:1234/pg/dump?dumpcontents=pools" :=
                      ok_response "pg dump" (output (VList ps))]> ∅))
          [new_cluster 1 "ceph" "http://host:1234/"]).


(** * Properties *)

(** ** Counter aggregation *)

Section counters.
Import ModelAdapter.

Lemma counter_insert key n (counts : gmap string Z) k :
  counter (<[key := n]> counts) k
  = if decide (key = k) then n else counter counts k.
Proof.
  unfold counter. rewrite lookup_insert. by case_decide.
Qed.

Lemma min_one_int n : min_one (VInt n) = VInt (Z.min n 1).
Proof.
  unfold min_one. destruct (Z.ltb_spec 1 n); f_equal; lia.
Qed.

Lemma bump_int key n counts :
  bump key (VInt n) counts
  = Ok (<[key := counter counts key + Z.min n 1]> counts).
Proof. unfold bump. by rewrite min_one_int. Qed.

(** One pool of integers: the inner loop returns, and every counter has
    grown by the pool's clamped indicator. *)
Lemma count_items_ints (m : gmap string Z) (counts : gmap string Z) :
  ∃ counts', count_items (VInt <$> m) counts = Ok counts' ∧
    ∀ k, counter counts' k = counter counts k + clamped_indicator k m.
Proof.
  unfold count_items. rewrite map_fold_fmap.
  apply (map_fold_weak_ind (λ r (m : gmap string Z),
    ∃ counts', r = Ok counts' ∧
      ∀ k, counter counts' k = counter counts k + clamped_indicator k m)).
  - exists counts. split; [done|]. intros k.
    unfold clamped_indicator. rewrite lookup_empty. lia.
  - clear m. intros i x m r Hi (c & -> & IH). simpl.
    rewrite bump_int. eexists. split; [done|]. intros k.
    rewrite counter_insert. unfold clamped_indicator.
    rewrite lookup_insert. case_decide as Hk.
    + subst k. rewrite IH. unfold clamped_indicator. rewrite Hi. lia.
    + rewrite IH. done.
Qed.

Lemma count_pools_ints (stats : list (gmap string Z)) (ps : list value) :
  Forall2 pool_with stats ps →
  ∀ counts, ∃ counts', count_pools ps counts = Ok counts' ∧
    ∀ k, counter counts' k
         = counter counts k + sum_Z (clamped_indicator k <$> stats).
Proof.
  induction 1 as [|m p stats ps Hp _ IH]; intros counts.
  - exists counts. split; [done|]. intros k. simpl. lia.
  - cbn [count_pools]. rewrite Hp. cbn [items].
    destruct (count_items_ints m counts) as (c1 & -> & H1).
    destruct (IH c1) as (c2 & -> & H2).
    exists c2. split; [done|]. intros k. rewrite H2, H1, fmap_cons.
    unfold sum_Z. cbn [foldr]. lia.
Qed.

Lemma lookup_set_fold_delete (counts : gmap string Z) (X : gset string) k :
  set_fold delete counts X !! k
  = if decide (k ∈ X) then None else counts !! k.
Proof.
  revert X. apply (set_fold_ind_L (λ r (X : gset string),
    r !! k = if decide (k ∈ X) then None else counts !! k)).
  - rewrite decide_False; [done | apply not_elem_of_empty].
  - intros x X r Hx IH. rewrite lookup_delete.
    destruct (decide (x = k)) as [->|Hne].
    + rewrite decide_True; [done|].
      by apply elem_of_union_l, elem_of_singleton.
    + rewrite IH. destruct (decide (k ∈ X)) as [Hin|Hout].
      * rewrite decide_True; [done | by apply elem_of_union_r].
      * rewrite decide_False; [done|].
        intros [Hk%elem_of_singleton|Hk]%elem_of_union; congruence.
Qed.

Lemma lookup_drop_unrecognized (counts : gmap string Z) k :
  drop_unrecognized counts !! k
  = if decide (k ∈ fields) then counts !! k else None.
Proof.
  unfold drop_unrecognized. rewrite lookup_set_fold_delete.
  destruct (decide (k ∈ fields)) as [Hin|Hout].
  - rewrite decide_False; [done|].
    intros [_ Hn]%elem_of_difference. apply Hn.
    by apply elem_of_list_to_set.
  - destruct (decide (k ∈ dom counts ∖ list_to_set fields)) as [|Hn];
      [done|].
    apply not_elem_of_dom. intros Hd. apply Hn.
    apply elem_of_difference. split; [done|].
    by rewrite elem_of_list_to_set.
Qed.

End counters.

(** ** Running the queries *)

Section queries.
Import CephRestClient.

Lemma bind_ok {A B} (m : M A) (k : A → M B) s a s' :
  m s = (Ok a, s') → bind m k s = k a s'.
Proof. unfold bind. by intros ->. Qed.

Lemma bind_raise {A B} (m : M A) (k : A → M B) s e s' :
  m s = (Raise e, s') → bind m k s = (Raise e, s').
Proof. unfold bind. by intros ->. Qed.

Lemma query_answers self endpoint s body :
  answers s (__url self +:+ endpoint) body →
  _query self endpoint s = (Ok body, issue (__url self +:+ endpoint) s).
Proof.
  intros (r & Hnet & Hbody). unfold _query, bind, requests_get, json.
  by rewrite Hnet, Hbody.
Qed.

Lemma query_output self endpoint s body out :
  answers s (__url self +:+ endpoint) body →
  getitem body "output" = Ok out →
  (let* b := _query self endpoint in lift (getitem b "output")) s
  = (Ok out, issue (__url self +:+ endpoint) s).
Proof.
  intros Hans Hout. rewrite (bind_ok _ _ _ _ _ (query_answers _ _ _ _ Hans)).
  unfold lift. by rewrite Hout.
Qed.

End queries.

Section counters_run.
Import ModelAdapter.

(** What [_calculate_pool_counters] returns on a dump of integer
    statistics: it issues the one request, and the mapping is the pools'
    sums cut down to the recognized fields, plus [total]. *)
Lemma calculate_pool_counters_run self s body ps stats :
  answers s (CephRestClient.__url (client self)
             +:+ "pg/dump?dumpcontents=pools") body →
  getitem body "output" = Ok (VList ps) →
  Forall2 pool_with stats ps →
  ∃ sums : gmap string Z,
    (∀ k, counter sums k = sum_Z (clamped_indicator k <$> stats)) ∧
    _calculate_pool_counters self s
    = (Ok (<["total" := Z.of_nat (length stats)]> (drop_unrecognized sums)),
       issue (CephRestClient.__url (client self)
              +:+ "pg/dump?dumpcontents=pools") s).
Proof.
  intros Hans Hout Hps.
  destruct (count_pools_ints _ _ Hps ∅) as (sums & Hrun & Hsum).
  exists sums. split.
  - intros k. rewrite Hsum. unfold counter. rewrite lookup_empty. simpl. lia.
  - unfold _calculate_pool_counters, CephRestClient.get_pg_pools.
    rewrite (bind_ok _ _ _ _ _ (query_output _ _ _ _ _ Hans Hout)).
    unfold bind, lift, ret. cbn [iter_value len]. rewrite Hrun.
    by rewrite (Forall2_length _ _ _ Hps).
Qed.

Lemma field_not_total f : f ∈ fields → f ≠ "total".
Proof.
  intros Hf ->. revert Hf. unfold fields.
  rewrite !elem_of_cons, elem_of_nil. intros H.
  repeat (destruct H as [H|H]; [discriminate H|]). done.
Qed.

End counters_run.

(** ** The claims on the counters *)

Section counter_claims.
Import ModelAdapter.

(** C3. On every sequence of per-pool statistic mappings, each of the six
    recognized counters is the sum over the pools of [min(value, 1)] where
    the field is present and [0] where it is absent; a pool whose value
    exceeds 1 adds exactly 1. *)
Theorem pool_counters_clamped_sum self s body ps stats :
  answers s (CephRestClient.__url (client self)
             +:+ "pg/dump?dumpcontents=pools") body →
  getitem body "output" = Ok (VList ps) →
  Forall2 pool_with stats ps →
  ∃ counts s',
    _calculate_pool_counters self s = (Ok counts, s') ∧
    ∀ f, f ∈ fields →
      counter counts f = sum_Z (clamped_indicator f <$> stats) ∧
      ∀ m v, m ∈ stats → m !! f = Some v → 1 < v →
             clamped_indicator f m = 1.
Proof.
  intros Hans Hout Hps.
  destruct (calculate_pool_counters_run _ _ _ _ _ Hans Hout Hps)
    as (sums & Hsum & Hrun).
  eexists _, _. split; [exact Hrun|]. intros f Hf. split.
  - rewrite <- Hsum. unfold counter.
    rewrite lookup_insert_ne by (symmetry; by apply field_not_total).
    rewrite lookup_drop_unrecognized. by rewrite decide_True.
  - intros m v _ Hv Hgt. unfold clamped_indicator. rewrite Hv. lia.
Qed.

Lemma pool_counters_clamped_sum_witness :
  ∃ counts s',
    _calculate_pool_counters example_adapter example_state = (Ok counts, s') ∧
    ∀ f, f ∈ fields →
      counter counts f = sum_Z (clamped_indicator f <$> example_stats) ∧
      ∀ m v, m ∈ example_stats → m !! f = Some v → 1 < v →
             clamped_indicator f m = 1.
Proof.
  apply (pool_counters_clamped_sum example_adapter example_state
           (output (VList example_pools)) example_pools example_stats).
  - eexists. split; reflexivity.
  - reflexivity.
  - repeat constructor.
Defined.

(** C6. [total] is the number of pools of the input sequence, whatever the
    pools contain; [0] for the empty sequence. *)
Theorem pool_counters_total self s body ps stats :
  answers s (CephRestClient.__url (client self)
             +:+ "pg/dump?dumpcontents=pools") body →
  getitem body "output" = Ok (VList ps) →
  Forall2 pool_with stats ps →
  ∃ counts s',
    _calculate_pool_counters self s = (Ok counts, s') ∧
    counts !! "total" = Some (Z.of_nat (length stats)) ∧
    (stats = [] → counts !! "total" = Some 0).
Proof.
  intros Hans Hout Hps.
  destruct (calculate_pool_counters_run _ _ _ _ _ Hans Hout Hps)
    as (sums & _ & Hrun).
  eexists _, _. split; [exact Hrun|].
  rewrite lookup_insert_eq. split; [done|]. by intros ->.
Qed.

Lemma pool_counters_total_witness :
  ∃ counts s',
    _calculate_pool_counters example_adapter example_state = (Ok counts, s') ∧
    counts !! "total" = Some (Z.of_nat (length example_stats)) ∧
    (example_stats = [] → counts !! "total" = Some 0).
Proof.
  apply (pool_counters_total example_adapter example_state
           (output (VList example_pools)) example_pools example_stats).
  - eexists. split; reflexivity.
  - reflexivity.
  - repeat constructor.
Defined.

(** C7. The returned mapping has no key beyond the six recognized fields
    and [total]; when no pool mentions a recognized field, the six counters
    all read 0. *)
Theorem pool_counters_keys self s body ps stats :
  answers s (CephRestClient.__url (client self)
             +:+ "pg/dump?dumpcontents=pools") body →
  getitem body "output" = Ok (VList ps) →
  Forall2 pool_with stats ps →
  ∃ counts s',
    _calculate_pool_counters self s = (Ok counts, s') ∧
    (∀ k, is_Some (counts !! k) → k ∈ fields ∨ k = "total") ∧
    ((∀ m f, m ∈ stats → f ∈ fields → m !! f = None) →
     ∀ f, f ∈ fields → counter counts f = 0).
Proof.
  intros Hans Hout Hps.
  destruct (calculate_pool_counters_run _ _ _ _ _ Hans Hout Hps)
    as (sums & Hsum & Hrun).
  eexists _, _. split; [exact Hrun|]. split.
  - intros k. rewrite lookup_insert. case_decide as Hk; [by right|].
    rewrite lookup_drop_unrecognized.
    destruct (decide (k ∈ fields)); [by left|]. by intros [? ?].
  - intros Hnone f Hf. unfold counter.
    rewrite lookup_insert_ne by (symmetry; by apply field_not_total).
    rewrite lookup_drop_unrecognized, decide_True by done.
    fold (counter sums f). rewrite Hsum.
    assert (Hall : ∀ m, m ∈ stats → clamped_indicator f m = 0).
    { intros m Hm. unfold clamped_indicator. by rewrite (Hnone m f). }
    clear -Hall. induction stats as [|m l IH]; [done|].
    rewrite fmap_cons. unfold sum_Z in *. cbn [foldr].
    rewrite (Hall m) by apply list_elem_of_here.
    rewrite IH; [done|]. intros m' Hm'. apply Hall.
    by apply list_elem_of_further.
Qed.

Lemma pool_counters_keys_witness :
  ∃ counts s',
    _calculate_pool_counters example_adapter example_state = (Ok counts, s') ∧
    (∀ k, is_Some (counts !! k) → k ∈ fields ∨ k = "total") ∧
    ((∀ m f, m ∈ example_stats → f ∈ fields → m !! f = None) →
     ∀ f, f ∈ fields → counter counts f = 0).
Proof.
  apply (pool_counters_keys example_adapter example_state
           (output (VList example_pools)) example_pools example_stats).
  - eexists. split; reflexivity.
  - reflexivity.
  - repeat constructor.
Defined.

(** The spec's example: one degraded pool counted once, three pools; the
    field [other] is gone. *)
Example pool_counters_example :
  (_calculate_pool_counters example_adapter example_state).1
  = Ok (<["num_objects_degraded" := 1]> (<["total" := 3]> ∅)).
Proof. vm_compute. reflexivity. Qed.

End counter_claims.

(** ** The space step *)

Section space_claims.
Import ModelAdapter.

Lemma lift_ok {A} (r : result A) a s : r = Ok a → lift r s = (Ok a, s).
Proof. by intros ->. Qed.

Lemma setattr_run c f s o :
  instances s !! c = Some o →
  setattr c f s = (Ok tt, set_instances (<[c := f o]> (instances s)) s).
Proof. unfold setattr. by intros ->. Qed.

(** C4. With integer [total_used = U], [total_space = C], [total_avail = A]
    in the space statistics, the space step sets the cluster's space to
    exactly [used_bytes = U*1024], [capacity_bytes = C*1024],
    [free_bytes = A*1024]. *)
Theorem populate_space_bytes self s body out data (U C A : Z) o :
  answers s (CephRestClient.__url (client self) +:+ "df") body →
  getitem body "output" = Ok out →
  getitem out "stats" = Ok data →
  getitem data "total_used" = Ok (VInt U) →
  getitem data "total_space" = Ok (VInt C) →
  getitem data "total_avail" = Ok (VInt A) →
  instances s !! cluster self = Some o →
  ∃ s' o',
    _populate_space self s = (Ok tt, s') ∧
    instances s' !! cluster self = Some o' ∧
    space o' = VDict (<["used_bytes" := VInt (U * 1024)]>
                     (<["capacity_bytes" := VInt (C * 1024)]>
                     (<["free_bytes" := VInt (A * 1024)]> ∅))).
Proof.
  intros Hans Hout Hstats HU HC HA Ho.
  unfold _populate_space, CephRestClient.get_space_stats.
  rewrite (bind_ok _ _ _ _ _ (query_output _ _ _ _ _ Hans Hout)).
  rewrite (bind_ok _ _ _ _ _ (lift_ok _ _ _ Hstats)).
  rewrite (bind_ok _ _ _ _ _ (lift_ok _ _ _ HU)).
  rewrite (bind_ok _ _ _ (VInt (U * 1024)) _ (lift_ok _ _ _ eq_refl)).
  rewrite (bind_ok _ _ _ _ _ (lift_ok _ _ _ HC)).
  rewrite (bind_ok _ _ _ (VInt (C * 1024)) _ (lift_ok _ _ _ eq_refl)).
  rewrite (bind_ok _ _ _ _ _ (lift_ok _ _ _ HA)).
  rewrite (bind_ok _ _ _ (VInt (A * 1024)) _ (lift_ok _ _ _ eq_refl)).
  erewrite setattr_run by exact Ho.
  eexists _, _. split; [reflexivity|]. split.
  - cbn [instances set_instances issue set_requests].
    apply list_lookup_insert_eq. by eapply lookup_lt_Some.
  - reflexivity.
Qed.

Lemma populate_space_bytes_witness :
  ∃ s' o',
    _populate_space example_adapter example_state = (Ok tt, s') ∧
    instances s' !! cluster example_adapter = Some o' ∧
    space o' = VDict (<["used_bytes" := VInt (7 * 1024)]>
                     (<["capacity_bytes" := VInt (100 * 1024)]>
                     (<["free_bytes" := VInt (93 * 1024)]> ∅))).
Proof.
  eapply (populate_space_bytes example_adapter example_state).
  - eexists. split; reflexivity.
  - reflexivity.
  - reflexivity.
  - reflexivity.
  - reflexivity.
  - reflexivity.
  - reflexivity.
Defined.

End space_claims.

(** ** What a computation leaves alone *)

Create HintDb frame discriminated.

Lemma preserves_ret {A} R `{!Reflexive R} (a : A) : preserves R (ret a).
Proof. intros s. apply reflexivity. Qed.

Lemma preserves_raise {A} R `{!Reflexive R} e : preserves R (@raise A e).
Proof. intros s. apply reflexivity. Qed.

Lemma preserves_lift {A} R `{!Reflexive R} (r : result A) :
  preserves R (lift r).
Proof. intros s. apply reflexivity. Qed.

Lemma preserves_gets {A} R `{!Reflexive R} (f : state → A) :
  preserves R (gets f).
Proof. intros s. apply reflexivity. Qed.

Lemma preserves_json R `{!Reflexive R} r : preserves R (json r).
Proof. intros s. unfold json. destruct (json_body r); apply reflexivity. Qed.

Lemma preserves_getattr {A} R `{!Reflexive R} c (f : Cluster → A) :
  preserves R (getattr c f).
Proof.
  intros s. unfold getattr. destruct (instances s !! c); apply reflexivity.
Qed.

Lemma preserves_bind {A B} R `{!Transitive R} (m : M A) (k : A → M B) :
  preserves R m → (∀ a, preserves R (k a)) → preserves R (bind m k).
Proof.
  intros Hm Hk s. unfold bind. specialize (Hm s).
  destruct (m s) as [[a|e] s1]; [|exact Hm].
  etrans; [exact Hm | apply Hk].
Qed.

Lemma preserves_try_except {A} R `{!Transitive R} (m : M A) h :
  preserves R m → (∀ e, preserves R (h e)) → preserves R (try_except m h).
Proof.
  intros Hm Hh s. unfold try_except. specialize (Hm s).
  destruct (m s) as [[a|e] s1]; [exact Hm|].
  etrans; [exact Hm | apply Hh].
Qed.

Lemma preserves_for_each {A} R `{!PreOrder R} (xs : list A) body :
  (∀ x, preserves R (body x)) → preserves R (for_each xs body).
Proof.
  intros Hb. induction xs as [|x xs IH]; cbn [for_each].
  - apply preserves_ret, _.
  - apply preserves_bind; [apply _ | apply Hb | intros _; exact IH].
Qed.

Lemma preserves_modify R g : (∀ s, R s (g s)) → preserves R (modify g).
Proof. intros Hg s. apply Hg. Qed.

Lemma preserves_requests_get R url :
  (∀ s, R s (issue url s)) → preserves R (requests_get url).
Proof.
  intros Hr s. unfold requests_get.
  destruct (net s (requests s) url); apply Hr.
Qed.

Lemma preserves_setattr R `{!Reflexive R} c f :
  (∀ s v, R s (set_instances v s)) → preserves R (setattr c f).
Proof.
  intros Hr s. unfold setattr.
  destruct (instances s !! c); [apply Hr | apply reflexivity].
Qed.

#[global] Instance same_preorder {X} (f : state → X) : PreOrder (same f).
Proof.
  split; [done|]. intros s1 s2 s3 H1 H2. unfold same in *. congruence.
Qed.

#[global] Instance quiet_preorder : PreOrder quiet.
Proof.
  split.
  - intros s. repeat split. exists []. by rewrite app_nil_r.
  - intros s1 s2 s3 (Hn1 & He1 & Hl1 & l1 & Hr1) (Hn2 & He2 & Hl2 & l2 & Hr2).
    repeat split; [congruence..|].
    exists (l1 ++ l2). by rewrite Hr2, Hr1, app_assoc.
Qed.

#[global] Hint Unfold
  CephRestClient._query CephRestClient.get_space_stats
  CephRestClient.get_health CephRestClient.get_osds
  CephRestClient.get_pg_pools
  ModelAdapter._populate_space ModelAdapter._populate_health
  ModelAdapter._populate_osds ModelAdapter._populate_counters
  ModelAdapter._calculate_pool_counters ModelAdapter.call_method
  ModelAdapter.refresh cluster_save cluster_status_save
  stdout_write stderr_write
  Command._print_response Command._cluster_query
  Command._refresh_cluster_status : frame.

(** Side conditions: a field update leaves the other fields alone, and
    leaves the request log a prefix of what it becomes. *)
Ltac frame_side :=
  intros; first
    [ reflexivity
    | exists []; cbn; by rewrite app_nil_r
    | eexists; reflexivity
    | repeat split; first
        [ reflexivity
        | exists []; cbn; by rewrite app_nil_r
        | eexists; reflexivity ] ].

Ltac frame :=
  repeat first
    [ progress intros
    | apply preserves_ret; apply _
    | apply preserves_raise; apply _
    | apply preserves_lift; apply _
    | apply preserves_gets; apply _
    | apply preserves_json; apply _
    | apply preserves_getattr; apply _
    | apply preserves_bind; [apply _ | | ]
    | apply preserves_try_except; [apply _ | | ]
    | apply preserves_for_each; [apply _ | ]
    | apply preserves_requests_get; solve [frame_side]
    | apply preserves_setattr; [apply _ | solve [frame_side]]
    | apply preserves_modify; solve [frame_side]
    | match goal with
      | |- preserves _ (match ?x with _ => _ end) => destruct x
      end
    | progress autounfold with frame ].

(** A build keeps what its steps and the save keep. *)
Lemma refresh_preserves R `{!PreOrder R} self :
  (∀ a, preserves R (ModelAdapter.call_method self a)) →
  preserves R (cluster_save (ModelAdapter.cluster self)) →
  preserves R (ModelAdapter.refresh self).
Proof.
  intros Hstep Hsave. unfold ModelAdapter.refresh.
  apply preserves_bind; [apply _ | | done].
  apply preserves_for_each; [apply _ | done].
Qed.

Section population_frames.
Import ModelAdapter.

Lemma call_method_db_clusters self a :
  preserves (same db_clusters) (call_method self a).
Proof. frame. Qed.

Lemma call_method_db_status self a :
  preserves (same db_status) (call_method self a).
Proof. frame. Qed.

Lemma calculate_pool_counters_instances self :
  preserves (same instances) (_calculate_pool_counters self).
Proof. frame. Qed.

Lemma rollback_bind {A B} (m : M A) (k : A → M B) :
  preserves (same instances) m → (∀ a, rollback (k a)) →
  rollback (bind m k).
Proof.
  intros Hm Hk s e s'. unfold bind. specialize (Hm s).
  destruct (m s) as [[a|e1] s1]; cbn in Hm.
  - intros Hrun. rewrite (Hk _ _ _ _ Hrun). exact Hm.
  - intros [= _ <-]. exact Hm.
Qed.

Lemma rollback_setattr c f : rollback (setattr c f).
Proof.
  intros s e s'. unfold setattr.
  destruct (instances s !! c); [discriminate|]. by intros [= _ <-].
Qed.

Lemma rollback_raise {A} e : rollback (@raise A e).
Proof. by intros s e' s' [= _ <-]. Qed.

(** A step that raises has written nothing: the assignment to the cluster
    is the last thing each step does. *)
Lemma call_method_rollback self a : rollback (call_method self a).
Proof.
  unfold call_method.
  repeat case_decide;
    autounfold with frame;
    repeat (apply rollback_bind; [frame | intros]);
    first [apply rollback_setattr | apply rollback_raise].
Qed.

End population_frames.

(** ** The build: order of the steps, and what a failing step leaves *)

Section refresh_claims.
Import ModelAdapter.

Lemma populate_attrs_sorted self :
  populate_attrs self
  = ["_populate_counters"; "_populate_health"; "_populate_osds";
     "_populate_space"].
Proof. reflexivity. Qed.

Lemma for_each_raise_at {A} (pre : list A) a post body s s1 e s2 :
  for_each pre body s = (Ok tt, s1) →
  body a s1 = (Raise e, s2) →
  for_each (pre ++ a :: post) body s = (Raise e, s2).
Proof.
  revert s. induction pre as [|x pre IH]; intros s; cbn [for_each app].
  - intros [= <-] Ha. by rewrite (bind_raise _ _ _ _ _ Ha).
  - unfold bind. destruct (body x s) as [[[]|e1] s0]; [|done].
    apply IH.
Qed.

Lemma refresh_raise_at self s pre a post e s1 s2 :
  populate_attrs self = pre ++ a :: post →
  for_each pre (call_method self) s = (Ok tt, s1) →
  call_method self a s1 = (Raise e, s2) →
  refresh self s = (Raise e, s2).
Proof.
  intros Hattrs Hpre Ha. unfold refresh. fold (populate_attrs self).
  rewrite Hattrs. apply bind_raise. by eapply for_each_raise_at.
Qed.

Lemma steps_keep_persisted self (pre : list string) a s s1 r s2 :
  for_each pre (call_method self) s = (Ok tt, s1) →
  call_method self a s1 = (r, s2) →
  db_clusters s2 = db_clusters s ∧ db_status s2 = db_status s.
Proof.
  intros Hpre Ha.
  pose proof (preserves_for_each (same db_clusters) pre _
                (call_method_db_clusters self) s) as H1.
  pose proof (preserves_for_each (same db_status) pre _
                (call_method_db_status self) s) as H2.
  pose proof (call_method_db_clusters self a s1) as H3.
  pose proof (call_method_db_status self a s1) as H4.
  rewrite Hpre in H1, H2. rewrite Ha in H3, H4.
  unfold same in *. cbn in *. split; congruence.
Qed.

(** C2, as the code has it. [refresh] takes the steps from [dir(self)],
    which is sorted by name: it runs counters, health, osds, space, in that
    order, then saves. *)
Theorem refresh_runs_steps_in_name_order self s :
  populate_attrs self
  = ["_populate_counters"; "_populate_health"; "_populate_osds";
     "_populate_space"] ∧
  refresh self s
  = (_populate_counters self ;; _populate_health self ;;
     _populate_osds self ;; _populate_space self ;;
     cluster_save (cluster self)) s.
Proof.
  split; [apply populate_attrs_sorted|].
  unfold refresh. fold (populate_attrs self). rewrite populate_attrs_sorted.
  cbn [for_each].
  change (call_method self "_populate_counters") with (_populate_counters self).
  change (call_method self "_populate_health") with (_populate_health self).
  change (call_method self "_populate_osds") with (_populate_osds self).
  change (call_method self "_populate_space") with (_populate_space self).
  unfold bind at 1 2 3 4 5 6 7 8 9, ret.
  destruct (_populate_counters self s) as [[[]|?] s1]; [|done].
  destruct (_populate_health self s1) as [[[]|?] s2]; [|done].
  destruct (_populate_osds self s2) as [[[]|?] s3]; [|done].
  destruct (_populate_space self s3) as [[[]|?] s4]; done.
Qed.

(** C2, as the spec states it, fails: on a cluster that answers every
    endpoint the pool dump is requested first and the space statistics
    last, and the run differs from the one in the spec's order. *)
Lemma refresh_order_counterexample :
  requests (refresh example_adapter example_state).2
  = ["http://host:1234/pg/dump?dumpcontents=pools";
     "http://host:1234/health?detail";
     "http://host:1234/osd/dump";
     "http://host:1234/df"] ∧
  requests (refresh_in_spec_order example_adapter example_state).2
  = ["http://host:1234/df";
     "http://host:1234/health?detail";
     "http://host:1234/osd/dump";
     "http://host:1234/pg/dump?dumpcontents=pools"] ∧
  refresh example_adapter example_state
  ≠ refresh_in_spec_order example_adapter example_state.
Proof.
  split; [vm_compute; reflexivity|]. split; [vm_compute; reflexivity|].
  intros Heq. apply (f_equal (λ x, requests x.2)) in Heq.
  vm_compute in Heq. discriminate Heq.
Qed.

End refresh_claims.

Section failing_step_claims.
Import ModelAdapter.

(** C5. When a population step raises, [refresh] raises there: the save is
    not reached, and the persisted cluster rows (and status rows) are what
    they were before the build. *)
Theorem refresh_raise_nothing_persisted self s pre a post e s1 s2 :
  populate_attrs self = pre ++ a :: post →
  for_each pre (call_method self) s = (Ok tt, s1) →
  call_method self a s1 = (Raise e, s2) →
  refresh self s = (Raise e, s2) ∧
  db_clusters s2 = db_clusters s ∧
  db_status s2 = db_status s.
Proof.
  intros Hattrs Hpre Ha. split.
  - by eapply refresh_raise_at.
  - by eapply steps_keep_persisted.
Qed.

Lemma refresh_raise_nothing_persisted_witness :
  ∃ s2,
    refresh example_adapter health_broken_state = (Raise KeyError, s2) ∧
    db_clusters s2 = db_clusters health_broken_state ∧
    db_status s2 = db_status health_broken_state.
Proof.
  eexists.
  eapply (refresh_raise_nothing_persisted example_adapter health_broken_state
           ["_populate_counters"] "_populate_health"
           ["_populate_osds"; "_populate_space"]).
  - reflexivity.
  - reflexivity.
  - reflexivity.
Defined.

(** C10. When a population step raises, the in-memory instances are left as
    the earlier steps made them: what those steps wrote stays written, while
    the persisted rows are untouched. *)
Theorem refresh_raise_keeps_earlier_writes self s pre a post e s1 s2 :
  populate_attrs self = pre ++ a :: post →
  for_each pre (call_method self) s = (Ok tt, s1) →
  call_method self a s1 = (Raise e, s2) →
  refresh self s = (Raise e, s2) ∧
  instances s2 = instances s1 ∧
  db_clusters s2 = db_clusters s.
Proof.
  intros Hattrs Hpre Ha. split; [by eapply refresh_raise_at|]. split.
  - by eapply call_method_rollback.
  - by eapply steps_keep_persisted.
Qed.

Lemma refresh_raise_keeps_earlier_writes_witness :
  ∃ s1 s2,
    for_each ["_populate_counters"] (call_method example_adapter)
      health_broken_state = (Ok tt, s1) ∧
    refresh example_adapter health_broken_state = (Raise KeyError, s2) ∧
    instances s2 = instances s1 ∧
    db_clusters s2 = db_clusters health_broken_state.
Proof.
  eexists _, _. split; [reflexivity|].
  eapply (refresh_raise_keeps_earlier_writes example_adapter
           health_broken_state
           ["_populate_counters"] "_populate_health"
           ["_populate_osds"; "_populate_space"]).
  - reflexivity.
  - reflexivity.
  - reflexivity.
Defined.

(** On that cluster the health step fails after the counters step: the
    instance carries the new counters, the persisted row does not. *)
Example health_fails_after_counters :
  (refresh example_adapter health_broken_state).1 = Raise KeyError ∧
  counters <$> instances (refresh example_adapter health_broken_state).2
                 !! 0%nat
  = Some (VDict (<["pool" := VDict (<["num_objects_degraded" := VInt 1]>
                                   (<["total" := VInt 3]> ∅))]> ∅)) ∧
  counters <$> db_clusters (refresh example_adapter health_broken_state).2
                 !! 0%nat
  = Some VNone.
Proof. vm_compute. done. Qed.

(** When every step returns, the instance is saved: the persisted row then
    carries the four fields. *)
Example refresh_persists_snapshot :
  (refresh example_adapter example_state).1 = Ok tt ∧
  space <$> db_clusters (refresh example_adapter example_state).2 !! 0%nat
  = Some (VDict (<["used_bytes" := VInt 7168]>
                (<["capacity_bytes" := VInt 102400]>
                (<["free_bytes" := VInt 95232]> ∅)))) ∧
  counters <$> db_clusters (refresh example_adapter example_state).2 !! 0%nat
  = Some (VDict (<["pool" := VDict (<["num_objects_degraded" := VInt 1]>
                                   (<["total" := VInt 3]> ∅))]> ∅)).
Proof. vm_compute. done. Qed.

End failing_step_claims.

(** ** The cycle: what is caught, which URL is asked, what is diagnosed *)

Section command_claims.
Import Command.

Lemma refresh_quiet self : preserves quiet (ModelAdapter.refresh self).
Proof. apply refresh_preserves; [apply _ | intros a; frame | frame]. Qed.

Lemma diagnose_run e s :
  diagnose e s
  = (Ok tt,
     set_stderr (stderr s ++ response_lines (_last_response s)
                          ++ [format_exc e]) s).
Proof.
  unfold diagnose, bind, gets, _print_response, response_lines.
  destruct (_last_response s) as [r|] eqn:Hr;
    [destruct (response_truthy r)|];
    unfold bind, stderr_write, modify, set_stderr; cbn;
    rewrite <- ?app_assoc; cbn; by rewrite ?Hr.
Qed.

Lemma diagnosed_quiet s s' : quiet s s' → diagnosed s s'.
Proof. intros (_ & He & Hl & _). split; by left. Qed.

Lemma diagnosed_after_quiet s s1 s' :
  quiet s s1 → diagnosed s1 s' → diagnosed s s'.
Proof.
  intros (Hn & He & Hl & l0 & Hr) [Herr Hlast]. split.
  - rewrite <- He. exact Herr.
  - destruct Hlast as [Hsame|(l & base & r & Hreq & Hnet & Hres)].
    + left. congruence.
    + right. exists (l0 ++ l), base, r. rewrite Hreq, Hr, Hn in *.
      rewrite <- !app_assoc in *. done.
Qed.

Lemma diagnosed_bind {A B} (m : M A) (k : A → M B) s :
  preserves quiet m →
  (∀ a s1, diagnosed s1 (k a s1).2) →
  diagnosed s (bind m k s).2.
Proof.
  intros Hm Hk. unfold bind. specialize (Hm s).
  destruct (m s) as [[a|e] s1]; cbn in Hm.
  - eapply diagnosed_after_quiet; [exact Hm | apply Hk].
  - by apply diagnosed_quiet.
Qed.

Lemma refresh_cluster_status_effect c s :
  let s1 := (_refresh_cluster_status c s).2 in
  stderr s1 = stderr s ∧
  (_last_response s1 = _last_response s ∨
   ∃ base r,
     requests s1 = requests s ++ [base +:+ "status"] ∧
     net s (requests s) (base +:+ "status") = Some r ∧
     _last_response s1 = Some r).
Proof.
  unfold _refresh_cluster_status, _cluster_query, cluster_status_save,
    stdout_write, requests_get, json, getattr, modify, lift, bind, raise, ret.
  destruct (instances s !! c) as [o|] eqn:Ho; cbn;
    [|split; [done | by left]].
  destruct (last_char (api_base_url o)) as [ch|]; cbn;
    [|split; [done | by left]].
  destruct (decide (ch = "/"%char)); cbn;
    [|split; [done | by left]].
  destruct (net s (requests s) (api_base_url o +:+ "status")) as [r|] eqn:Hnet;
    cbn; [|split; [done | by left]].
  assert (Hgot : ∃ base r0,
            requests s ++ [api_base_url o +:+ "status"]
            = requests s ++ [base +:+ "status"] ∧
            net s (requests s) (base +:+ "status") = Some r0 ∧
            Some r = Some r0)
    by (by exists (api_base_url o), r).
  destruct (json_body r) as [v|]; cbn; [|split; [done | by right]].
  destruct (getitem v "output"); cbn; [|split; [done | by right]].
  rewrite Ho. cbn. rewrite Ho. cbn. split; [done | by right].
Qed.

Lemma status_block_diagnosed c s :
  diagnosed s (try_except (_refresh_cluster_status c) diagnose s).2.
Proof.
  pose proof (refresh_cluster_status_effect c s) as [Herr Hlast].
  assert (Hlast' :
    _last_response (_refresh_cluster_status c s).2 = _last_response s ∨
    ∃ l base r,
      requests (_refresh_cluster_status c s).2
      = requests s ++ l ++ [base +:+ "status"] ∧
      net s (requests s ++ l) (base +:+ "status") = Some r ∧
      _last_response (_refresh_cluster_status c s).2 = Some r).
  { destruct Hlast as [?|(base & r & ? & ? & ?)]; [by left|].
    right. exists [], base, r. by rewrite app_nil_r. }
  clear Hlast. unfold try_except.
  destruct (_refresh_cluster_status c s) as [[[]|e] s1]; cbn in Herr, Hlast'.
  - split; [by left | done].
  - rewrite diagnose_run. cbn. split; [|done].
    right. exists e. by rewrite Herr.
Qed.

(** Processing a cluster writes at most one diagnostic, and the diagnostic
    shows the retained response; the retained response is replaced only by
    the answer to this cluster's own [status] GET. *)
Lemma handle_cluster_diagnosed c s : diagnosed s (handle_cluster c s).2.
Proof.
  unfold handle_cluster.
  repeat (apply diagnosed_bind; [first [apply refresh_quiet | frame] | intros]).
  apply status_block_diagnosed.
Qed.



(** A build that raises ends the processing of the cluster there, outside
    the [try]. *)
Lemma handle_cluster_refresh_raises c s o client e s' :
  instances s !! c = Some o →
  CephRestClient.__init__ (api_base_url o) = Ok client →
  ModelAdapter.refresh (ModelAdapter.__init__ client c) s = (Raise e, s') →
  handle_cluster c s = (Raise e, s').
Proof.
  intros Ho Hclient Hrefresh. unfold handle_cluster.
  unfold bind at 1. unfold getattr at 1. rewrite Ho.
  unfold bind at 1. unfold lift at 1. rewrite Hclient.
  by apply bind_raise.
Qed.

(** ... and with it the loop: the clusters after it are not visited. *)
Lemma for_each_raises {A} (x : A) xs body s e s' :
  body x s = (Raise e, s') → for_each (x :: xs) body s = (Raise e, s').
Proof. intros Hx. cbn [for_each]. by apply bind_raise. Qed.

(** C1 fails on the code. Of two registered clusters the first one's pool
    dump query raises: [handle] raises with it, after that single request;
    the second cluster, whose API answers, is never asked, nothing is
    persisted, and the completion message is not written. *)
Theorem handle_aborts_on_build_failure :
  (handle first_down_state).1 = Raise ConnectionError ∧
  requests (handle first_down_state).2
  = ["http://a/pg/dump?dumpcontents=pools"] ∧
  stdout (handle first_down_state).2 = ["Updating 2 clusters..."] ∧
  stderr (handle first_down_state).2 = [] ∧
  db_clusters (handle first_down_state).2 = db_clusters first_down_state ∧
  db_status (handle first_down_state).2 = [].
Proof. vm_compute. done. Qed.

(** The status query of a cluster whose base URL lacks the final slash
    raises before any request. *)
Lemma cluster_query_without_slash c url s o ch :
  instances s !! c = Some o →
  last_char (api_base_url o) = Some ch →
  ch ≠ "/"%char →
  _cluster_query c url s = (Raise AttributeError, s).
Proof.
  intros Ho Hlast Hch. unfold _cluster_query, bind, getattr.
  rewrite Ho, Hlast. by rewrite decide_False.
Qed.

(** The REST client does append the slash when it is missing, and asks at
    the joined URL. *)
Lemma last_char_append_slash url : last_char (url +:+ "/") = Some "/"%char.
Proof.
  induction url as [|a url IH]; [done|].
  change (String a url +:+ "/") with (String a (url +:+ "/")).
  destruct (url +:+ "/") eqn:Happ; [by destruct url | exact IH].
Qed.

Lemma last_char_None url : last_char url = None → url = EmptyString.
Proof.
  induction url as [|a url IH]; [done|]. cbn [last_char].
  destruct url; [done | intros H; by specialize (IH H)].
Qed.

Lemma rest_client_init_normalizes url :
  url ≠ EmptyString →
  ∃ self, CephRestClient.__init__ url = Ok self ∧
    last_char (CephRestClient.__url self) = Some "/"%char ∧
    (CephRestClient.__url self = url ∨
     CephRestClient.__url self = url +:+ "/").
Proof.
  intros Hne. unfold CephRestClient.__init__.
  destruct (last_char url) as [ch|] eqn:Hlast.
  - destruct (decide (ch = "/"%char)) as [->|Hch]; eexists; cbn.
    + split; [done|]. split; [done | by left].
    + split; [done|]. split; [apply last_char_append_slash | by right].
  - by apply last_char_None in Hlast.
Qed.

Lemma rest_client_query_url self endpoint s :
  requests (CephRestClient._query self endpoint s).2
  = requests s ++ [CephRestClient.__url self +:+ endpoint].
Proof.
  unfold CephRestClient._query, bind, requests_get, json.
  destruct (net s (requests s) _) as [r|]; [|done].
  by destruct (json_body r).
Qed.

(** C8 fails on the code for the status endpoint. With base URL
    [http://host:1234] the REST client asks [http://host:1234/df], but the
    status query raises [AttributeError] and issues no request. *)
Theorem status_query_url_not_normalized :
  CephRestClient.__init__ "http://host:1234"
  = Ok {| CephRestClient.__url := "http://host:1234/" |} ∧
  requests (CephRestClient.get_space_stats
              {| CephRestClient.__url := "http://host:1234/" |}
              example_state).2
  = ["http://host:1234/df"] ∧
  (_cluster_query 0%nat "status" example_state).1 = Raise AttributeError ∧
  requests (_cluster_query 0%nat "status" example_state).2 = [].
Proof. vm_compute. done. Qed.

End command_claims.

(** * Further properties of the code *)

(** ** The REST client *)

Section rest_client.
Import CephRestClient.

(** The typed wrappers and their endpoints. *)
Lemma wrappers_unfold self get endpoint :
  (get, endpoint) ∈ [(get_space_stats, "df"); (get_health, "health?detail");
                     (get_osds, "osd/dump");
                     (get_pg_pools, "pg/dump?dumpcontents=pools")] →
  get self = query_output_of self endpoint.
Proof.
  rewrite !elem_of_cons, elem_of_nil.
  intros [[= -> ->]|[[= -> ->]|[[= -> ->]|[[= -> ->]|[]]]]]; reflexivity.
Qed.

(** X1. [CephRestClient(url)] raises [IndexError] exactly on the empty URL;
    on any other URL it keeps a URL that ends with a slash: the URL itself
    when it already ended with one, the URL plus one slash otherwise. *)
Theorem rest_client_init_cases url :
  (url = EmptyString → __init__ url = Raise IndexError) ∧
  (url ≠ EmptyString →
   ∃ self, __init__ url = Ok self ∧
     last_char (__url self) = Some "/"%char ∧
     (last_char url = Some "/"%char → __url self = url) ∧
     (last_char url ≠ Some "/"%char → __url self = url +:+ "/")).
Proof.
  split; [by intros ->|]. intros Hne. unfold __init__.
  destruct (last_char url) as [ch|] eqn:Hlast.
  - destruct (decide (ch = "/"%char)) as [->|Hch]; eexists; cbn.
    + split; [done|]. split; [done|]. split; [done | by intros []].
    + split; [done|]. split; [apply last_char_append_slash|].
      split; [intros [= ?]; done | done].
  - by apply last_char_None in Hlast.
Qed.

(** X2. Normalizing is idempotent: a client built from the URL another
    client keeps is that client. *)
Theorem rest_client_init_idempotent url self :
  __init__ url = Ok self → __init__ (__url self) = Ok self.
Proof.
  intros Hinit.
  assert (Hslash : last_char (__url self) = Some "/"%char).
  { unfold __init__ in Hinit.
    destruct (last_char url) as [ch|] eqn:Hlast; [|done].
    destruct (decide (ch = "/"%char)) as [->|Hch];
      injection Hinit as <-; cbn; [done | apply last_char_append_slash]. }
  unfold __init__. rewrite Hslash. rewrite decide_True by done.
  by destruct self.
Qed.

Lemma rest_client_init_idempotent_witness :
  __init__ (__url {| __url := "http://host:1234/" |})
  = Ok {| __url := "http://host:1234/" |}.
Proof.
  apply (rest_client_init_idempotent "http://host:1234"). reflexivity.
Defined.

(** X3. Each typed wrapper issues exactly one GET, at the client's URL
    followed by its endpoint, whether it returns or raises, and changes
    nothing else. *)
Theorem wrapper_issues_one_request self get endpoint s :
  (get, endpoint) ∈ [(get_space_stats, "df"); (get_health, "health?detail");
                     (get_osds, "osd/dump");
                     (get_pg_pools, "pg/dump?dumpcontents=pools")] →
  (get self s).2 = issue (__url self +:+ endpoint) s.
Proof.
  intros Hin. rewrite (wrappers_unfold _ _ _ Hin).
  unfold query_output_of, _query, bind, requests_get, json, lift, issue.
  destruct (net s (requests s) _) as [r|]; [|done].
  cbn. by destruct (json_body r).
Qed.

Lemma wrapper_issues_one_request_witness :
  (get_health {| __url := "http://host:1234/" |} example_state).2
  = issue ("http://host:1234/" +:+ "health?detail") example_state.
Proof.
  apply (wrapper_issues_one_request {| __url := "http://host:1234/" |}
           get_health "health?detail" example_state).
  apply list_elem_of_further, list_elem_of_here.
Defined.

(** X4. What a typed wrapper returns: the [output] member of the decoded
    body, when the GET is answered with a JSON object that has one;
    otherwise it raises [ConnectionError] (no answer), [ValueError] (body
    not JSON), [TypeError] (body not an object) or [KeyError] (no
    [output]). *)
Theorem wrapper_result self get endpoint s :
  (get, endpoint) ∈ [(get_space_stats, "df"); (get_health, "health?detail");
                     (get_osds, "osd/dump");
                     (get_pg_pools, "pg/dump?dumpcontents=pools")] →
  match net s (requests s) (__url self +:+ endpoint) with
  | None => (get self s).1 = Raise ConnectionError
  | Some r =>
      match json_body r with
      | None => (get self s).1 = Raise ValueError
      | Some (VDict d) =>
          match d !! "output" with
          | Some out => (get self s).1 = Ok out
          | None => (get self s).1 = Raise KeyError
          end
      | Some _ => (get self s).1 = Raise TypeError
      end
  end.
Proof.
  intros Hin. rewrite (wrappers_unfold _ _ _ Hin).
  unfold query_output_of, _query, bind, requests_get, json, lift.
  destruct (net s (requests s) _) as [r|]; [|done].
  cbn. destruct (json_body r) as [[]|]; cbn; try done.
  by destruct (_ !! "output").
Qed.

Lemma wrapper_result_witness :
  (get_osds {| __url := "http://host:1234/" |} example_state).1
  = Ok (VDict (<["osds" := VList []]> ∅)).
Proof.
  exact (wrapper_result {| __url := "http://host:1234/" |}
           get_osds "osd/dump" example_state
           ltac:(apply list_elem_of_further, list_elem_of_further,
                 list_elem_of_here)).
Defined.

End rest_client.

(** ** The population steps *)

Section population_steps.
Import ModelAdapter.

Lemma query_output_of_run self endpoint s body out :
  answers s (CephRestClient.__url self +:+ endpoint) body →
  getitem body "output" = Ok out →
  query_output_of self endpoint s
  = (Ok out, issue (CephRestClient.__url self +:+ endpoint) s).
Proof. apply query_output. Qed.

Lemma populate_health_run self s body data st de su o :
  answers s (CephRestClient.__url (client self) +:+ "health?detail") body →
  getitem body "output" = Ok data →
  getitem data "overall_status" = Ok st →
  getitem data "detail" = Ok de →
  getitem data "summary" = Ok su →
  instances s !! cluster self = Some o →
  _populate_health self s
  = (Ok tt,
     set_instances
       (<[cluster self :=
            with_health (VDict (<["overall_status" := st]>
                               (<["detail" := de]>
                               (<["summary" := su]> ∅)))) o]> (instances s))
       (issue (CephRestClient.__url (client self) +:+ "health?detail") s)).
Proof.
  intros Hans Hout Hst Hde Hsu Ho.
  unfold _populate_health, CephRestClient.get_health.
  rewrite (bind_ok _ _ _ _ _ (query_output _ _ _ _ _ Hans Hout)).
  rewrite (bind_ok _ _ _ _ _ (lift_ok _ _ _ Hst)).
  rewrite (bind_ok _ _ _ _ _ (lift_ok _ _ _ Hde)).
  rewrite (bind_ok _ _ _ _ _ (lift_ok _ _ _ Hsu)).
  by erewrite setattr_run by exact Ho.
Qed.

(** X5. The health step copies [overall_status], [detail] and [summary] as
    they come, drops every other member of the health report, and writes
    nothing but the health of its own cluster. *)
Theorem populate_health_copies self s body data st de su o :
  answers s (CephRestClient.__url (client self) +:+ "health?detail") body →
  getitem body "output" = Ok data →
  getitem data "overall_status" = Ok st →
  getitem data "detail" = Ok de →
  getitem data "summary" = Ok su →
  instances s !! cluster self = Some o →
  ∃ s',
    _populate_health self s = (Ok tt, s') ∧
    instances s'
    = <[cluster self :=
          with_health (VDict (<["overall_status" := st]>
                             (<["detail" := de]>
                             (<["summary" := su]> ∅)))) o]> (instances s).
Proof.
  intros Hans Hout Hst Hde Hsu Ho. eexists. split.
  - by eapply populate_health_run.
  - reflexivity.
Qed.

Lemma populate_health_copies_witness :
  ∃ s',
    _populate_health example_adapter example_state = (Ok tt, s') ∧
    instances s'
    = <[0%nat :=
          with_health (VDict (<["overall_status" := VStr "HEALTH_OK"]>
                             (<["detail" := VList []]>
                             (<["summary" := VList []]> ∅))))
            (new_cluster 1 "ceph" "http://host:1234")]>
        (instances example_state).
Proof.
  eapply (populate_health_copies example_adapter example_state).
  - eexists. split; reflexivity.
  - reflexivity.
  - reflexivity.
  - reflexivity.
  - reflexivity.
  - reflexivity.
Defined.

(** X6. A health report that lacks one of the three members makes the
    health step raise [KeyError] after its request; no instance is
    touched. *)
Theorem populate_health_missing_member self s body (d : gmap string value) :
  answers s (CephRestClient.__url (client self) +:+ "health?detail") body →
  getitem body "output" = Ok (VDict d) →
  d !! "overall_status" = None ∨ d !! "detail" = None ∨
    d !! "summary" = None →
  _populate_health self s
  = (Raise KeyError,
     issue (CephRestClient.__url (client self) +:+ "health?detail") s).
Proof.
  intros Hans Hout Hmiss.
  unfold _populate_health, CephRestClient.get_health.
  rewrite (bind_ok _ _ _ _ _ (query_output _ _ _ _ _ Hans Hout)).
  unfold bind, lift, getitem.
  destruct (d !! "overall_status"); [|done].
  destruct (d !! "detail"); [|done].
  destruct (d !! "summary"); [|done].
  by destruct Hmiss as [?|[?|?]].
Qed.

Lemma populate_health_missing_member_witness :
  _populate_health example_adapter health_broken_state
  = (Raise KeyError,
     issue ("http://host:1234/" +:+ "health?detail") health_broken_state).
Proof.
  eapply (populate_health_missing_member example_adapter
            health_broken_state _ ∅).
  - eexists. split; reflexivity.
  - reflexivity.
  - left. reflexivity.
Defined.

(** X7. The OSD step stores the [osds] member as it comes, whatever it is,
    and writes nothing but the OSDs of its own cluster. *)
Theorem populate_osds_verbatim self s body data v o :
  answers s (CephRestClient.__url (client self) +:+ "osd/dump") body →
  getitem body "output" = Ok data →
  getitem data "osds" = Ok v →
  instances s !! cluster self = Some o →
  ∃ s',
    _populate_osds self s = (Ok tt, s') ∧
    instances s' = <[cluster self := with_osds v o]> (instances s).
Proof.
  intros Hans Hout Hv Ho. eexists.
  unfold _populate_osds, CephRestClient.get_osds.
  rewrite (bind_ok _ _ _ _ _ (query_output _ _ _ _ _ Hans Hout)).
  rewrite (bind_ok _ _ _ _ _ (lift_ok _ _ _ Hv)).
  erewrite setattr_run by exact Ho. by split.
Qed.

Lemma populate_osds_verbatim_witness :
  ∃ s',
    _populate_osds example_adapter example_state = (Ok tt, s') ∧
    instances s'
    = <[0%nat := with_osds (VList []) (new_cluster 1 "ceph" "http://host:1234")]>
        (instances example_state).
Proof.
  eapply (populate_osds_verbatim example_adapter example_state).
  - eexists. split; reflexivity.
  - reflexivity.
  - reflexivity.
  - reflexivity.
Defined.

Lemma preserves_setattr_field {X} (g : Cluster → X) c f :
  (∀ o, g (f o) = g o) →
  preserves (same (λ s, g <$> instances s)) (setattr c f).
Proof.
  intros Hg s. unfold setattr, same. cbn beta.
  destruct (_ !! _) as [o|] eqn:Ho; [|done].
  cbn [snd set_instances instances].
  rewrite list_fmap_insert, Hg.
  apply list_insert_id. rewrite list_lookup_fmap.
  unfold ref in *. by rewrite Ho.
Qed.

Lemma preserves_setattr_other c c' f :
  c ≠ c' → preserves (same (λ s, instances s !! c')) (setattr c f).
Proof.
  intros Hne s. unfold setattr, same. cbn beta.
  match goal with
  | |- context [match ?x with _ => _ end] => destruct x as [o|]
  end; [|done].
  cbn [snd set_instances instances].
  by apply list_lookup_insert_ne.
Qed.

(** X8. A population step touches no instance but its own cluster's. *)
Theorem step_leaves_other_instances self a c' :
  c' ≠ cluster self →
  preserves (same (λ s, instances s !! c')) (call_method self a).
Proof.
  intros Hne. frame; by apply preserves_setattr_other.
Qed.

Lemma step_leaves_other_instances_witness :
  preserves (same (λ s, instances s !! 1%nat))
    (call_method example_adapter "_populate_space").
Proof.
  apply (step_leaves_other_instances example_adapter "_populate_space" 1%nat).
  discriminate.
Defined.

(** X9. Each population step writes its own field only: on every instance
    the identity and the three other snapshot fields are as before, whether
    the step returns or raises. *)
Theorem step_writes_own_field self :
  preserves (same (λ s, (λ c, (identity c, health c, osds c, counters c))
                          <$> instances s)) (_populate_space self) ∧
  preserves (same (λ s, (λ c, (identity c, space c, osds c, counters c))
                          <$> instances s)) (_populate_health self) ∧
  preserves (same (λ s, (λ c, (identity c, space c, health c, counters c))
                          <$> instances s)) (_populate_osds self) ∧
  preserves (same (λ s, (λ c, (identity c, space c, health c, osds c))
                          <$> instances s)) (_populate_counters self).
Proof.
  repeat split; frame; by apply preserves_setattr_field.
Qed.

End population_steps.

(** ** The build as a whole *)

Section build.
Import ModelAdapter.

Lemma query_output_of_requests self endpoint s :
  requests (query_output_of self endpoint s).2
  = requests s ++ [CephRestClient.__url self +:+ endpoint].
Proof.
  unfold query_output_of, CephRestClient._query, bind, requests_get, json,
    lift.
  destruct (net s (requests s) _) as [r|]; [|done].
  cbn. by destruct (json_body r).
Qed.

Lemma bind_issues {A B} (m : M A) (k : A → M B) s u :
  requests (m s).2 = requests s ++ [u] →
  (∀ a, preserves (same requests) (k a)) →
  requests (bind m k s).2 = requests s ++ [u].
Proof.
  intros Hm Hk. unfold bind. destruct (m s) as [[a|e] s1]; [|exact Hm].
  cbn in Hm. rewrite <- Hm. apply Hk.
Qed.

Lemma step_requests self :
  (∀ s, requests (_populate_counters self s).2
        = requests s ++ [CephRestClient.__url (client self)
                         +:+ "pg/dump?dumpcontents=pools"]) ∧
  (∀ s, requests (_populate_health self s).2
        = requests s ++ [CephRestClient.__url (client self)
                         +:+ "health?detail"]) ∧
  (∀ s, requests (_populate_osds self s).2
        = requests s ++ [CephRestClient.__url (client self) +:+ "osd/dump"]) ∧
  (∀ s, requests (_populate_space self s).2
        = requests s ++ [CephRestClient.__url (client self) +:+ "df"]).
Proof.
  repeat split; intros s.
  - apply bind_issues; [|frame]. apply bind_issues; [|frame].
    apply query_output_of_requests.
  - apply bind_issues; [|frame]. apply query_output_of_requests.
  - apply bind_issues; [|frame]. apply query_output_of_requests.
  - apply bind_issues; [|frame]. apply query_output_of_requests.
Qed.

(** X10. Each population step issues exactly one GET, at its own endpoint,
    whether it returns or raises. *)
Theorem step_issues_one_request self s :
  requests (_populate_counters self s).2
  = requests s ++ [CephRestClient.__url (client self)
                   +:+ "pg/dump?dumpcontents=pools"] ∧
  requests (_populate_health self s).2
  = requests s ++ [CephRestClient.__url (client self) +:+ "health?detail"] ∧
  requests (_populate_osds self s).2
  = requests s ++ [CephRestClient.__url (client self) +:+ "osd/dump"] ∧
  requests (_populate_space self s).2
  = requests s ++ [CephRestClient.__url (client self) +:+ "df"].
Proof.
  destruct (step_requests self) as (H1 & H2 & H3 & H4). by repeat split.
Qed.




(** X12. A build leaves the network, the status rows, both output streams
    and the retained response as they were: the responses to its queries
    are never retained for the diagnostic. *)
Theorem refresh_leaves_command_state self :
  preserves (same (λ s, (net s, db_status s, stdout s, stderr s,
                         _last_response s))) (refresh self).
Proof. apply refresh_preserves; [apply _ | intros a; frame | frame]. Qed.

End build.

Section build_succeeds.
Import ModelAdapter.











End build_succeeds.

(** ** More on the counters *)

Section counters_more.
Import ModelAdapter.

Lemma clamped_indicator_le k m : clamped_indicator k m ≤ 1.
Proof. unfold clamped_indicator. destruct (m !! k); lia. Qed.

Lemma sum_clamped_le k (stats : list (gmap string Z)) :
  sum_Z (clamped_indicator k <$> stats) ≤ Z.of_nat (length stats).
Proof.
  induction stats as [|m stats IH]; [done|].
  rewrite fmap_cons. unfold sum_Z in *. cbn [foldr length].
  pose proof (clamped_indicator_le k m). lia.
Qed.

Lemma sum_clamped_nonneg k (stats : list (gmap string Z)) :
  (∀ m v, m ∈ stats → m !! k = Some v → 0 ≤ v) →
  0 ≤ sum_Z (clamped_indicator k <$> stats).
Proof.
  induction stats as [|m stats IH]; intros Hpos; [done|].
  rewrite fmap_cons. unfold sum_Z in *. cbn [foldr].
  assert (0 ≤ clamped_indicator k m).
  { unfold clamped_indicator. destruct (m !! k) as [v|] eqn:Hv; [|done].
    pose proof (Hpos m v (list_elem_of_here _ _) Hv). lia. }
  assert (0 ≤ foldr Z.add 0 (clamped_indicator k <$> stats)).
  { apply IH. intros m' v Hm'. apply Hpos. by apply list_elem_of_further. }
  lia.
Qed.

(** X14. On integer statistics no recognized counter exceeds [total], the
    number of pools; and none is negative when no statistic is. *)
Theorem pool_counters_bounded self s body ps stats :
  answers s (CephRestClient.__url (client self)
             +:+ "pg/dump?dumpcontents=pools") body →
  getitem body "output" = Ok (VList ps) →
  Forall2 pool_with stats ps →
  ∃ counts s',
    _calculate_pool_counters self s = (Ok counts, s') ∧
    ∀ f, f ∈ fields →
      counter counts f ≤ counter counts "total" ∧
      ((∀ m v, m ∈ stats → m !! f = Some v → 0 ≤ v) →
       0 ≤ counter counts f).
Proof.
  intros Hans Hout Hps.
  destruct (calculate_pool_counters_run _ _ _ _ _ Hans Hout Hps)
    as (sums & Hsum & Hrun).
  eexists _, _. split; [exact Hrun|]. intros f Hf.
  assert (Hread : counter (<["total" := Z.of_nat (length stats)]>
                             (drop_unrecognized sums)) f
                  = sum_Z (clamped_indicator f <$> stats)).
  { rewrite <- Hsum. unfold counter.
    rewrite lookup_insert_ne by (symmetry; by apply field_not_total).
    rewrite lookup_drop_unrecognized. by rewrite decide_True. }
  rewrite Hread. split.
  - unfold counter at 1. rewrite lookup_insert_eq. apply sum_clamped_le.
  - apply sum_clamped_nonneg.
Qed.

Lemma pool_counters_bounded_witness :
  ∃ counts s',
    _calculate_pool_counters example_adapter example_state
    = (Ok counts, s') ∧
    ∀ f, f ∈ fields →
      counter counts f ≤ counter counts "total" ∧
      ((∀ m v, m ∈ example_stats → m !! f = Some v → 0 ≤ v) →
       0 ≤ counter counts f).
Proof.
  apply (pool_counters_bounded example_adapter example_state
           (output (VList example_pools)) example_pools example_stats).
  - eexists. split; reflexivity.
  - reflexivity.
  - repeat constructor.
Defined.

Lemma count_items_lookup (m : gmap string Z) (counts : gmap string Z) :
  ∃ counts', count_items (VInt <$> m) counts = Ok counts' ∧
    ∀ k, counts' !! k = tally k (counts !! k) m.
Proof.
  unfold count_items. rewrite map_fold_fmap.
  apply (map_fold_weak_ind (λ r (m : gmap string Z),
    ∃ counts', r = Ok counts' ∧
      ∀ k, counts' !! k = tally k (counts !! k) m)).
  - exists counts. split; [done|]. intros k.
    unfold tally. by rewrite lookup_empty.
  - clear m. intros i x m r Hi (c & -> & IH). simpl.
    rewrite bump_int. eexists. split; [done|]. intros k.
    unfold tally. rewrite !lookup_insert. case_decide as Hk.
    + subst k. unfold counter. rewrite IH. unfold tally. by rewrite Hi.
    + rewrite IH. done.
Qed.

Lemma count_pools_lookup (stats : list (gmap string Z)) (ps : list value) :
  Forall2 pool_with stats ps →
  ∀ counts, ∃ counts', count_pools ps counts = Ok counts' ∧
    ∀ k, counts' !! k = foldl (tally k) (counts !! k) stats.
Proof.
  induction 1 as [|m p stats ps Hp _ IH]; intros counts.
  - by exists counts.
  - cbn [count_pools]. rewrite Hp. cbn [items].
    destruct (count_items_lookup m counts) as (c1 & -> & H1).
    destruct (IH c1) as (c2 & -> & H2).
    exists c2. split; [done|]. intros k. by rewrite H2, H1.
Qed.

Lemma tally_swap k acc m1 m2 :
  tally k (tally k acc m1) m2 = tally k (tally k acc m2) m1.
Proof.
  unfold tally. destruct (m1 !! k), (m2 !! k); cbn; try done.
  f_equal. lia.
Qed.

Lemma foldl_tally_permutation k (l1 l2 : list (gmap string Z)) :
  l1 ≡ₚ l2 → ∀ acc, foldl (tally k) acc l1 = foldl (tally k) acc l2.
Proof.
  induction 1 as [|m l1 l2 _ IH|m1 m2 l|l1 l2 l3 _ IH1 _ IH2]; intros acc.
  - done.
  - cbn. apply IH.
  - cbn. by rewrite tally_swap.
  - by rewrite IH1, IH2.
Qed.

(** X15. The order of the pools in the dump does not matter: two dumps of
    integer statistics that are permutations of one another give the same
    counter mapping. *)
Theorem pool_counters_order_independent self s body ps stats
    self' s' body' ps' stats' :
  answers s (CephRestClient.__url (client self)
             +:+ "pg/dump?dumpcontents=pools") body →
  getitem body "output" = Ok (VList ps) →
  Forall2 pool_with stats ps →
  answers s' (CephRestClient.__url (client self')
              +:+ "pg/dump?dumpcontents=pools") body' →
  getitem body' "output" = Ok (VList ps') →
  Forall2 pool_with stats' ps' →
  stats ≡ₚ stats' →
  ∃ counts,
    (_calculate_pool_counters self s).1 = Ok counts ∧
    (_calculate_pool_counters self' s').1 = Ok counts.
Proof.
  intros Hans Hout Hps Hans' Hout' Hps' Hperm.
  destruct (count_pools_lookup _ _ Hps ∅) as (c & Hc & Hl).
  destruct (count_pools_lookup _ _ Hps' ∅) as (c' & Hc' & Hl').
  assert (c' = c) as ->.
  { apply map_eq. intros k. rewrite Hl, Hl'.
    symmetry. by apply foldl_tally_permutation. }
  exists (<["total" := Z.of_nat (length stats)]> (drop_unrecognized c)).
  unfold _calculate_pool_counters, CephRestClient.get_pg_pools.
  rewrite (bind_ok _ _ _ _ _ (query_output _ _ _ _ _ Hans Hout)).
  rewrite (bind_ok _ _ _ _ _ (query_output _ _ _ _ _ Hans' Hout')).
  unfold bind, lift, ret. cbn [iter_value len]. rewrite Hc, Hc'. cbn.
  rewrite <- (Forall2_length _ _ _ Hps), <- (Forall2_length _ _ _ Hps').
  by rewrite (Permutation_length Hperm).
Qed.

End counters_more.

Section counters_errors.
Import ModelAdapter.

Lemma pool_counters_order_independent_witness :
  ∃ counts,
    (_calculate_pool_counters example_adapter
       (dump_state (int_pool <$> example_stats))).1 = Ok counts ∧
    (_calculate_pool_counters example_adapter
       (dump_state (int_pool <$> reverse example_stats))).1 = Ok counts.
Proof.
  eapply (pool_counters_order_independent
            example_adapter (dump_state (int_pool <$> example_stats))
            _ _ example_stats
            example_adapter (dump_state (int_pool <$> reverse example_stats))
            _ _ (reverse example_stats)).
  - eexists. split; reflexivity.
  - reflexivity.
  - repeat constructor.
  - eexists. split; reflexivity.
  - reflexivity.
  - repeat constructor.
  - symmetry. apply reverse_Permutation.
Defined.

Lemma count_pools_app pre post counts counts1 :
  count_pools pre counts = Ok counts1 →
  count_pools (pre ++ post) counts = count_pools post counts1.
Proof.
  revert counts. induction pre as [|p pre IH]; intros counts; cbn [count_pools app].
  - by intros [= ->].
  - destruct (getitem p "stat_sum") as [pool|]; [|done].
    destruct (items pool) as [kvs|]; [|done].
    destruct (count_items kvs counts) as [c|]; [|done]. apply IH.
Qed.

Lemma calculate_pool_counters_raise self s body ps e :
  answers s (CephRestClient.__url (client self)
             +:+ "pg/dump?dumpcontents=pools") body →
  getitem body "output" = Ok (VList ps) →
  count_pools ps ∅ = Raise e →
  _calculate_pool_counters self s
  = (Raise e, issue (CephRestClient.__url (client self)
                     +:+ "pg/dump?dumpcontents=pools") s).
Proof.
  intros Hans Hout Hraise.
  unfold _calculate_pool_counters, CephRestClient.get_pg_pools.
  rewrite (bind_ok _ _ _ _ _ (query_output _ _ _ _ _ Hans Hout)).
  unfold bind, lift. cbn [iter_value]. by rewrite Hraise.
Qed.

(** X16. A pool of the dump without [stat_sum] (or that is not an object)
    makes the aggregation raise, [KeyError] (or [TypeError]), when its turn
    comes after pools of integer statistics; no counter mapping is
    returned. *)
Theorem pool_counters_missing_stat_sum self s body stats pre p post e :
  answers s (CephRestClient.__url (client self)
             +:+ "pg/dump?dumpcontents=pools") body →
  getitem body "output" = Ok (VList (pre ++ p :: post)) →
  Forall2 pool_with stats pre →
  getitem p "stat_sum" = Raise e →
  _calculate_pool_counters self s
  = (Raise e, issue (CephRestClient.__url (client self)
                     +:+ "pg/dump?dumpcontents=pools") s).
Proof.
  intros Hans Hout Hpre Hp.
  apply (calculate_pool_counters_raise _ _ _ _ _ Hans Hout).
  destruct (count_pools_ints _ _ Hpre ∅) as (c1 & Hc1 & _).
  rewrite (count_pools_app _ _ _ _ Hc1). cbn [count_pools]. by rewrite Hp.
Qed.

Lemma pool_counters_missing_stat_sum_witness :
  _calculate_pool_counters example_adapter
    (dump_state (example_pools ++ [VDict ∅]))
  = (Raise KeyError,
     issue ("http://host:1234/" +:+ "pg/dump?dumpcontents=pools")
       (dump_state (example_pools ++ [VDict ∅]))).
Proof.
  eapply (pool_counters_missing_stat_sum example_adapter
            (dump_state (example_pools ++ [VDict ∅]))
            _ example_stats example_pools (VDict ∅) []).
  - eexists. split; reflexivity.
  - reflexivity.
  - repeat constructor.
  - reflexivity.
Defined.

Lemma bump_raises key v counts e :
  bump key v counts = Raise e → e = TypeError.
Proof.
  unfold bump, add_int. destruct (min_one v); congruence.
Qed.

Lemma count_items_null (d : gmap string value) counts :
  (∃ k, d !! k = Some VNone) → count_items d counts = Raise TypeError.
Proof.
  unfold count_items.
  apply (map_fold_weak_ind (λ r (m : gmap string value),
    (∀ e, r = Raise e → e = TypeError) ∧
    ((∃ k, m !! k = Some VNone) → r = Raise TypeError))).
  - split; [done|]. intros [k Hk]. by rewrite lookup_empty in Hk.
  - clear d. intros i x m r Hi [Hexn Hnull]. split.
    + intros e. destruct r as [c|e']; [apply bump_raises | auto].
    + intros [k Hk]. rewrite lookup_insert in Hk. case_decide as Hik.
      * injection Hk as ->. destruct r as [c|e']; [done|].
        by rewrite (Hexn e').
      * rewrite Hnull by eauto. done.
Qed.

(** X17. A [null] among the statistics of a pool, under a recognized name
    or any other, makes the aggregation raise [TypeError] when the pool's
    turn comes after pools of integer statistics. *)
Theorem pool_counters_null_statistic self s body stats pre p post
    (d : gmap string value) k :
  answers s (CephRestClient.__url (client self)
             +:+ "pg/dump?dumpcontents=pools") body →
  getitem body "output" = Ok (VList (pre ++ p :: post)) →
  Forall2 pool_with stats pre →
  getitem p "stat_sum" = Ok (VDict d) →
  d !! k = Some VNone →
  _calculate_pool_counters self s
  = (Raise TypeError, issue (CephRestClient.__url (client self)
                             +:+ "pg/dump?dumpcontents=pools") s).
Proof.
  intros Hans Hout Hpre Hp Hk.
  apply (calculate_pool_counters_raise _ _ _ _ _ Hans Hout).
  destruct (count_pools_ints _ _ Hpre ∅) as (c1 & Hc1 & _).
  rewrite (count_pools_app _ _ _ _ Hc1). cbn [count_pools].
  rewrite Hp. cbn [items]. rewrite count_items_null by eauto. done.
Qed.

Lemma pool_counters_null_statistic_witness :
  _calculate_pool_counters example_adapter
    (dump_state
       (example_pools
        ++ [VDict (<["stat_sum" := VDict (<["other" := VNone]> ∅)]> ∅)]))
  = (Raise TypeError,
     issue ("http://host:1234/" +:+ "pg/dump?dumpcontents=pools")
       (dump_state
          (example_pools
           ++ [VDict (<["stat_sum" := VDict (<["other" := VNone]> ∅)]> ∅)]))).
Proof.
  eapply (pool_counters_null_statistic example_adapter
            (dump_state
               (example_pools
                ++ [VDict (<["stat_sum" := VDict (<["other" := VNone]> ∅)]>
                             ∅)]))
            _ example_stats example_pools _ []
            (<["other" := VNone]> ∅) "other").
  - eexists. split; reflexivity.
  - reflexivity.
  - repeat constructor.
  - reflexivity.
  - reflexivity.
Defined.

End counters_errors.

(** ** The status query and the cycle *)

Section cycle.
Import Command.

Lemma cluster_query_run c url s o :
  instances s !! c = Some o →
  last_char (api_base_url o) = Some "/"%char →
  match net s (requests s) (api_base_url o +:+ url) with
  | Some r =>
      _cluster_query c url s
      = (match json_body r with
         | Some v => Ok v
         | None => Raise ValueError
         end,
         set_last_response (Some r) (issue (api_base_url o +:+ url) s))
  | None =>
      _cluster_query c url s
      = (Raise ConnectionError, issue (api_base_url o +:+ url) s)
  end.
Proof.
  intros Ho Hlast.
  unfold _cluster_query, bind, getattr, requests_get, json, modify.
  rewrite Ho, Hlast. rewrite decide_True by done. cbn.
  destruct (net s (requests s) _) as [r|]; [|done].
  by destruct (json_body r).
Qed.

(** X18. With a base URL that ends with a slash the status query issues one
    GET at the base URL followed by the target. When the GET is answered
    the response is retained before its body is decoded, so it is retained
    even if the body is not JSON; when the GET raises, the retained
    response is the one from before. *)
Theorem cluster_query_retains_response c url s o :
  instances s !! c = Some o →
  last_char (api_base_url o) = Some "/"%char →
  match net s (requests s) (api_base_url o +:+ url) with
  | Some r =>
      _cluster_query c url s
      = (match json_body r with
         | Some v => Ok v
         | None => Raise ValueError
         end,
         set_last_response (Some r) (issue (api_base_url o +:+ url) s))
  | None =>
      _cluster_query c url s
      = (Raise ConnectionError, issue (api_base_url o +:+ url) s)
  end.
Proof. apply cluster_query_run. Qed.

Lemma cluster_query_retains_response_witness :
  _cluster_query 0%nat "status" health_broken_state
  = (Ok (output (VStr "HEALTH_OK")),
     set_last_response
       (Some (ok_response "http://host:1234/ status"
                (output (VStr "HEALTH_OK"))))
       (issue ("http://host:1234/" +:+ "status") health_broken_state)).
Proof.
  exact (cluster_query_retains_response 0%nat "status" health_broken_state
           (new_cluster 1 "ceph" "http://host:1234/") eq_refl eq_refl).
Defined.





(** X20. A status refresh that raises has appended no status row and
    written nothing to stdout. *)
Theorem refresh_cluster_status_raise_appends_nothing c s e s' :
  _refresh_cluster_status c s = (Raise e, s') →
  db_status s' = db_status s ∧ stdout s' = stdout s.
Proof.
  unfold _refresh_cluster_status, _cluster_query, cluster_status_save,
    stdout_write, requests_get, json, getattr, modify, lift, bind, raise, ret.
  destruct (instances s !! c) as [o|] eqn:Ho; cbn; [|by intros [= _ <-]].
  destruct (last_char (api_base_url o)) as [ch|]; cbn; [|by intros [= _ <-]].
  destruct (decide (ch = "/"%char)); cbn; [|by intros [= _ <-]].
  destruct (net s (requests s) (api_base_url o +:+ "status")) as [r|];
    cbn; [|by intros [= _ <-]].
  destruct (json_body r) as [v|]; cbn; [|by intros [= _ <-]].
  destruct (getitem v "output"); cbn; [|by intros [= _ <-]].
  rewrite Ho. cbn. rewrite Ho. cbn. done.
Qed.

Lemma refresh_cluster_status_raise_appends_nothing_witness :
  db_status
    (issue "http://b/status"
       (set_instances (db_clusters second_status_down_state)
          second_status_down_state))
  = db_status
      (set_instances (db_clusters second_status_down_state)
         second_status_down_state) ∧
  stdout
    (issue "http://b/status"
       (set_instances (db_clusters second_status_down_state)
          second_status_down_state))
  = stdout
      (set_instances (db_clusters second_status_down_state)
         second_status_down_state).
Proof.
  apply (refresh_cluster_status_raise_appends_nothing 1%nat
           (set_instances (db_clusters second_status_down_state)
              second_status_down_state) ConnectionError).
  reflexivity.
Defined.

(** X21. A status refresh never touches the instances, the persisted
    cluster rows, or stderr. *)
Theorem refresh_cluster_status_frame c :
  preserves (same (λ s, (instances s, db_clusters s, stderr s, net s)))
    (_refresh_cluster_status c).
Proof. frame. Qed.

End cycle.

(** ** What is retained, what is diagnosed *)

Section status_block.
Import Command.









(** In that state the second cluster's status GET raises: the diagnostic
    written while it is processed shows the first cluster's response. *)
Example second_cluster_diagnostic_is_stale :
  status_answer (net before_second_state)
    (requests before_second_state
     ++ refresh_urls
          (ModelAdapter.__init__
             {| CephRestClient.__url := "http://b/" |} 1%nat))
    (new_cluster 2 "b" "http://b/") = None ∧
  stderr (handle_cluster 1%nat before_second_state).2
  = ["last response: status code: 200";
     "last response: headers: {'content-type': 'application/json'}";
     "last response: content: http://a/ status";
     "Traceback (most recent call last): ConnectionError"].
Proof. vm_compute. done. Qed.

End status_block.

#[global] Instance status_grows_preorder : PreOrder status_grows.
Proof.
  split.
  - intros s. exists []. by rewrite app_nil_r.
  - intros s1 s2 s3 [l1 H1] [l2 H2]. exists (l1 ++ l2).
    by rewrite H2, H1, app_assoc.
Qed.

Section cycle_whole.
Import Command.

Lemma refresh_status_grows self :
  preserves status_grows (ModelAdapter.refresh self).
Proof. apply refresh_preserves; [apply _ | intros a; frame | frame]. Qed.

Lemma handle_cluster_status_grows c : preserves status_grows (handle_cluster c).
Proof.
  unfold handle_cluster.
  apply preserves_bind; [apply _ | frame | intros url].
  apply preserves_bind; [apply _ | frame | intros client].
  apply preserves_bind; [apply _ | apply refresh_status_grows | intros _].
  frame.
Qed.

(** X22. Over a whole cycle the status rows only grow: the rows that were
    there are still there, in place and unchanged, whether the cycle
    completes or is aborted. *)
Theorem handle_status_append_only : preserves status_grows handle.
Proof.
  unfold handle.
  apply preserves_bind; [apply _ | | intros clusters].
  - intros s. exists []. cbn. by rewrite app_nil_r.
  - apply preserves_bind; [apply _ | frame | intros _].
    apply preserves_bind; [apply _ | | intros _; frame].
    apply preserves_for_each; [apply _ |]. apply handle_cluster_status_grows.
Qed.

(** X23. With no registered cluster the cycle issues no request, reports
    zero clusters and completes. *)
Theorem handle_no_clusters s :
  db_clusters s = [] →
  (handle s).1 = Ok tt ∧
  stdout (handle s).2
  = stdout s ++ ["Updating 0 clusters..."; "Update completed!"] ∧
  requests (handle s).2 = requests s ∧
  stderr (handle s).2 = stderr s ∧
  db_status (handle s).2 = db_status s.
Proof.
  intros Hrows. unfold handle, bind, objects_all, stdout_write, modify.
  rewrite Hrows. cbn. by rewrite <- app_assoc.
Qed.

Lemma handle_no_clusters_witness :
  (handle (boot (serve ∅) [])).1 = Ok tt ∧
  stdout (handle (boot (serve ∅) [])).2
  = stdout (boot (serve ∅) [])
    ++ ["Updating 0 clusters..."; "Update completed!"] ∧
  requests (handle (boot (serve ∅) [])).2 = requests (boot (serve ∅) []) ∧
  stderr (handle (boot (serve ∅) [])).2 = stderr (boot (serve ∅) []) ∧
  db_status (handle (boot (serve ∅) [])).2 = db_status (boot (serve ∅) []).
Proof. apply (handle_no_clusters (boot (serve ∅) [])). reflexivity. Defined.

End cycle_whole.

(** ** The salt event source *)

Section salt_event_source.
Import SaltEventSource.

Lemma get_event_well_kept {Event} (ev : option Event) self :
  well_kept self → well_kept (get_event ev self).2.
Proof.
  intros (Hrange & [q Hq] & Hopen & Hsp).
  unfold well_kept, get_event, POLL_TIMEOUT, SILENCE_TIMEOUT.
  destruct ev as [e|].
  - cbn. split; [lia|]. split; [by exists 0|]. done.
  - destruct (Z.ltb_spec 20 (_silence_counter self + 5)); cbn.
    + split; [lia|]. split; [by exists 0|]. split; [by rewrite Hopen|].
      rewrite Hsp, Hopen. by rewrite seq_S.
    + split; [lia|]. split; [exists (q + 1); lia|]. done.
Qed.

(** X24. The event source keeps its books through any sequence of polls:
    the silence counter is one of 0, 5, 10, 15, 20, the current connection
    is the last one constructed, and the connections handed over for
    destruction are exactly the earlier ones, each once. *)
Theorem polls_well_kept {Event} (evs : list (option Event)) :
  well_kept (polls evs __init__).2.
Proof.
  assert (Hgen : ∀ self, well_kept self → well_kept (polls evs self).2).
  { induction evs as [|ev evs IH]; intros self Hself; [done|].
    cbn [polls].
    pose proof (get_event_well_kept ev self Hself) as Hstep.
    destruct (get_event ev self) as [out self1]. cbn in Hstep.
    specialize (IH self1 Hstep).
    by destruct (polls evs self1) as [outs self2]. }
  apply Hgen. unfold well_kept. cbn.
  split; [lia|]. split; [by exists 0 | done].
Qed.

(** X25. The wrapper hands out what the connection delivered, poll by
    poll: an event is returned as it is, a silent poll returns nothing. *)
Theorem polls_pass_events {Event} (evs : list (option Event)) self :
  (polls evs self).1 = evs.
Proof.
  revert self. induction evs as [|ev evs IH]; intros self; [done|].
  cbn [polls].
  assert (Hout : (get_event ev self).1 = ev).
  { unfold get_event. destruct ev; [done|]. by destruct (_ <? _). }
  destruct (get_event ev self) as [out self1]. cbn in Hout. subst out.
  specialize (IH self1). destruct (polls evs self1) as [outs self2].
  cbn in *. by rewrite IH.
Qed.

Lemma silent_polls_from {Event} (n : nat) self (j : Z) :
  0 ≤ j ≤ 4 →
  _silence_counter self = 5 * j →
  _silence_counter (polls (replicate n (@None Event)) self).2
  = 5 * ((j + Z.of_nat n) mod 5) ∧
  Z.of_nat (length (spawned (polls (replicate n (@None Event)) self).2))
  = Z.of_nat (length (spawned self)) + (j + Z.of_nat n) / 5.
Proof.
  revert self j. induction n as [|n IH]; intros self j Hj Hc.
  - cbn. rewrite Z.add_0_r, Z.mod_small, Z.div_small by lia. lia.
  - cbn [replicate polls].
    unfold get_event, POLL_TIMEOUT, SILENCE_TIMEOUT.
    destruct (Z.ltb_spec 20 (_silence_counter self + 5)) as [Hlt|Hge].
    + assert (j = 4) as -> by lia.
      match goal with
      | |- context [polls _ ?self1] =>
          destruct (IH self1 0 ltac:(lia) eq_refl) as [IHc IHs];
          destruct (polls (replicate n None) self1) as [outs self2]
      end.
      cbn [fst snd _silence_counter spawned] in *.
      rewrite Z.add_0_l in IHc, IHs. rewrite length_app in IHs.
      cbn [length] in IHs.
      replace (4 + Z.of_nat (S n)) with (Z.of_nat n + 1 * 5) by lia.
      rewrite Z.mod_add, Z.div_add by lia. rewrite IHc, IHs. lia.
    + match goal with
      | |- context [polls _ ?self1] =>
          destruct (IH self1 (j + 1) ltac:(lia) ltac:(cbn; lia)) as [IHc IHs];
          destruct (polls (replicate n None) self1) as [outs self2]
      end.
      cbn [fst snd _silence_counter spawned] in *.
      replace (j + Z.of_nat (S n)) with (j + 1 + Z.of_nat n) by lia.
      by rewrite IHc, IHs.
Qed.

(** X26. Silence is counted in polls of 5 seconds and the connection is
    re-opened when the count would pass 20: after [n] silent polls in a
    row from a reset counter the source has re-opened [n / 5] times and its
    counter stands at [5 * (n mod 5)]. The first re-opening comes with the
    fifth silent poll, not the fourth. *)
Theorem silent_polls_reopen {Event} (n : nat) self :
  _silence_counter self = 0 →
  _silence_counter (polls (replicate n (@None Event)) self).2
  = 5 * (Z.of_nat n mod 5) ∧
  Z.of_nat (length (spawned (polls (replicate n (@None Event)) self).2))
  = Z.of_nat (length (spawned self)) + Z.of_nat n / 5.
Proof.
  intros Hc. apply (silent_polls_from n self 0); [lia | by rewrite Hc].
Qed.

Lemma silent_polls_reopen_witness :
  _silence_counter (polls (replicate 5 (@None unit)) __init__).2
  = 5 * (Z.of_nat 5 mod 5) ∧
  Z.of_nat (length (spawned (polls (replicate 5 (@None unit)) __init__).2))
  = Z.of_nat (length (spawned __init__)) + Z.of_nat 5 / 5.
Proof. apply (silent_polls_reopen 5 __init__). reflexivity. Defined.

(** Four silent polls leave the first connection in place, the fifth
    replaces it. *)
Example fifth_silent_poll_reopens :
  _master_event (polls (replicate 4 (@None unit)) __init__).2 = 0%nat ∧
  _master_event (polls (replicate 5 (@None unit)) __init__).2 = 1%nat ∧
  spawned (polls (replicate 5 (@None unit)) __init__).2 = [0%nat].
Proof. vm_compute. done. Qed.

End salt_event_source.
